(** * FARO document metadata: a shallow embedding of [faro/document_metadata.py]

    The module under study is the class [FARO_Document]: it asks an external
    parser for the text and the metadata dictionary of a file, preprocesses
    the text into line groups, resolves a handful of metadata attributes
    through fallback chains over the dictionary keys, and exposes them as an
    ordered dictionary.

    Modelling choices.
    - A Python [str] is a [string]; every character stands for the code
      point of the same number (code points from 256 on are not represented).
    - A value held by the metadata dictionary is a [value]: a scalar
      ([None], a [bool], an [int], a [str]) or a list of scalars.
    - The metadata dictionary is a [gmap string value]; only membership
      ([k in d]) and subscription ([d[k]]) are used by the code.
    - An object is a record of optional attributes: [None] is an attribute
      that was never assigned, which is what [getattr(self, name, None)]
      tests for.
    - Methods that assign attributes and may raise are computations in a
      state-and-exception monad in which the assignments made before an
      exception stay in the object, as they do in Python.
    - The three collaborators that live outside the file ([parse_file],
      [preprocess_text], [detect]) are a type class. *)

From Stdlib Require Import Ascii.
From stdpp Require Import gmap strings list fin_maps pretty.

(** ** Python strings *)

Module PyStr.

(** The line feed, written ["\n"] in the source. *)
Definition LF : ascii := ascii_of_nat 10.

(** [str.isspace] on one character, for the code points below 256:
    TAB, LF, VT, FF, CR, the four separators FS GS RS US, the space,
    NEL (133) and the no-break space (160). *)
Definition isspace (c : ascii) : bool :=
  let n := nat_of_ascii c in
  ((9 <=? n) && (n <=? 13)) || ((28 <=? n) && (n <=? 32))
  || (n =? 133) || (n =? 160).

(** The class [\w] of the [re] module on [str] patterns, for the code
    points below 256: the underscore and every alphanumeric character
    (ASCII letters and digits, the Latin-1 letters, the superscript
    digits and the vulgar fractions). *)
Definition isword (c : ascii) : bool :=
  let n := nat_of_ascii c in
  ((48 <=? n) && (n <=? 57)) || ((65 <=? n) && (n <=? 90)) || (n =? 95)
  || ((97 <=? n) && (n <=? 122))
  || (n =? 170) || (n =? 178) || (n =? 179) || (n =? 181)
  || (n =? 185) || (n =? 186) || ((188 <=? n) && (n <=? 190))
  || ((192 <=? n) && (n <=? 214)) || ((216 <=? n) && (n <=? 246))
  || ((248 <=? n) && (n <=? 255)).

(** Membership of a character in a string seen as a set of characters. *)
Fixpoint mem (c : ascii) (chars : string) : bool :=
  match chars with
  | EmptyString => false
  | String c' chars' => Ascii.eqb c c' || mem c chars'
  end.

Fixpoint lstrip_by (p : ascii → bool) (s : string) : string :=
  match s with
  | EmptyString => EmptyString
  | String c s' => if p c then lstrip_by p s' else s
  end.

Fixpoint rstrip_by (p : ascii → bool) (s : string) : string :=
  match s with
  | EmptyString => EmptyString
  | String c s' =>
      match rstrip_by p s' with
      | EmptyString => if p c then EmptyString else String c EmptyString
      | r => String c r
      end
  end.

(** [s.strip()]: leading and trailing whitespace removed. *)
Definition strip (s : string) : string :=
  rstrip_by isspace (lstrip_by isspace s).

(** [s.strip(chars)]: leading and trailing characters of [chars] removed. *)
Definition strip_chars (chars : string) (s : string) : string :=
  rstrip_by (λ c, mem c chars) (lstrip_by (λ c, mem c chars) s).

(** [s.split(sep)] for a separator of one character. The result is never
    empty: the empty string splits into one empty field. *)
Fixpoint split (sep : ascii) (s : string) : list string :=
  match s with
  | EmptyString => [EmptyString]
  | String c s' =>
      if Ascii.eqb c sep then EmptyString :: split sep s'
      else match split sep s' with
           | w :: ws => String c w :: ws
           | [] => [String c EmptyString]
           end
  end.

(** [s.split()]: the maximal runs of characters that are not whitespace. *)
Fixpoint split_ws (s : string) : list string :=
  match s with
  | EmptyString => []
  | String c s' =>
      if isspace c then split_ws s'
      else match s' with
           | EmptyString => [String c EmptyString]
           | String c' _ =>
               if isspace c' then String c EmptyString :: split_ws s'
               else match split_ws s' with
                    | w :: ws => String c w :: ws
                    | [] => [String c EmptyString]
                    end
           end
  end.

(** [re.sub("[^\w]", " ", s)]: every character outside [\w] becomes a
    space. *)
Fixpoint sub_nonword (s : string) : string :=
  match s with
  | EmptyString => EmptyString
  | String c s' =>
      String (if isword c then c else " "%char) (sub_nonword s')
  end.

(** [sep.join(l)] on a list of strings. *)
Definition join (sep : string) (l : list string) : string :=
  String.concat sep l.

(** ["{} {}".format(a, b)] on two strings. *)
Definition format2 (a b : string) : string := a +:+ " " +:+ b.

(** A string literal with line feeds: the lines joined by LF. *)
Definition unlines (l : list string) : string :=
  String.concat (String LF EmptyString) l.

End PyStr.

(** ** Python values, exceptions and outcomes *)

Inductive scalar : Type :=
  | SNone
  | SBool (b : bool)
  | SInt (n : Z)
  | SStr (s : string).

Inductive value : Type :=
  | VScalar (x : scalar)
  | VList (xs : list scalar).

Coercion VScalar : scalar >-> value.

Global Instance scalar_eq_dec : EqDecision scalar.
Proof. solve_decision. Defined.

Global Instance value_eq_dec : EqDecision value.
Proof. solve_decision. Defined.

(** The instances of [Exception] that the code can meet. [OtherException]
    stands for any other subclass of [Exception], by its name. What is
    raised outside [Exception] ([KeyboardInterrupt], [SystemExit]) ends the
    program and is not represented. *)
Inductive exn : Type :=
  | KeyError (key : string)
  | IndexError
  | TypeError
  | ValueError
  | LangDetectException
  | OtherException (name : string).

Inductive outcome (A : Type) : Type :=
  | Returns (a : A)
  | Raises (e : exn).

Arguments Returns {A} a.
Arguments Raises {A} e.

Definition isinstance_list (v : value) : bool :=
  match v with VList _ => true | VScalar _ => false end.

Definition isinstance_LangDetectException (e : exn) : bool :=
  match e with LangDetectException => true | _ => false end.

(** ** The builtins [str], [int] and [sum] *)

Module Builtins.

(** [str(x)] on a scalar. *)
Definition str (x : scalar) : string :=
  match x with
  | SNone => "None"
  | SBool true => "True"
  | SBool false => "False"
  | SInt n => pretty n
  | SStr s => s
  end.

Definition digit (c : ascii) : option Z :=
  let n := nat_of_ascii c in
  if (48 <=? n) && (n <=? 57) then Some (Z.of_nat n - 48)%Z else None.

(** The digits of a decimal literal, where single underscores may sit
    between two digits. [after_digit] tells whether the previous character
    was a digit. *)
Fixpoint digits (acc : Z) (after_digit : bool) (s : string) : option Z :=
  match s with
  | EmptyString => if after_digit then Some acc else None
  | String c s' =>
      match digit c with
      | Some d => digits (10 * acc + d)%Z true s'
      | None =>
          if Ascii.eqb c "_"%char && after_digit then digits acc false s'
          else None
      end
  end.

(** Whitespace that [int] skips around the literal: the six ASCII blanks;
    NEL and the no-break space are first turned into spaces. *)
Definition int_blank (c : ascii) : bool :=
  let n := nat_of_ascii c in
  ((9 <=? n) && (n <=? 13)) || (n =? 32) || (n =? 133) || (n =? 160).

(** [int(s)] on a string, base ten: blanks, an optional sign, digits. *)
Definition int_of_str (s : string) : option Z :=
  match PyStr.rstrip_by int_blank (PyStr.lstrip_by int_blank s) with
  | String "-" s' => Z.opp <$> digits 0 false s'
  | String "+" s' => digits 0 false s'
  | s' => digits 0 false s'
  end.

(** [int(x)] on a scalar. *)
Definition int (x : scalar) : outcome Z :=
  match x with
  | SNone => Raises TypeError
  | SBool b => Returns (if b then 1 else 0)%Z
  | SInt n => Returns n
  | SStr s =>
      match int_of_str s with
      | Some n => Returns n
      | None => Raises ValueError
      end
  end.

(** The list comprehension [[int(x) for x in xs]]: elements are converted
    from left to right and the first failure is raised. *)
Fixpoint ints (xs : list scalar) : outcome (list Z) :=
  match xs with
  | [] => Returns []
  | x :: xs' =>
      match int x with
      | Raises e => Raises e
      | Returns n =>
          match ints xs' with
          | Raises e => Raises e
          | Returns ns => Returns (n :: ns)
          end
      end
  end.

(** [sum(ns)] on a list of integers. *)
Definition sum (ns : list Z) : Z := fold_left Z.add ns 0%Z.

End Builtins.

(** ** The collaborators outside the file *)

(** [parse_file path] returns the text (or [None]) and the metadata
    dictionary (or [None]) of a document, or raises; [preprocess_text]
    cleans one line; [detect] names the language of a text, or raises. *)
Class Externals : Type := {
  parse_file : string → outcome (option string * option (gmap string value));
  preprocess_text : string → string;
  detect : string → outcome string;
}.

(** ** The object *)

(** Each field is an attribute, [None] until it is assigned. For
    [file_lines] the [None] of the field also stands for the Python [None]
    that line 132 guards against: the constructor assigns a list before the
    attribute is read. *)
Record FARO_Document : Type := mkDoc {
  file_lines : option (list string);
  metadata_error : option bool;
  content_type : option value;
  author : option value;
  num_of_pages : option value;
  filesize : option value;
  ocr_parsing : option value;
  creation_date : option value;
  num_words : option nat;
  num_chars : option nat;
  lang : option value;
  document_path : option string;
}.

(** The object as [__init__] receives it: no attribute assigned yet. *)
Definition new_object : FARO_Document :=
  mkDoc None None None None None None None None None None None None.

Definition set_file_lines (v : list string) (d : FARO_Document) :=
  mkDoc (Some v) (metadata_error d) (content_type d) (author d)
    (num_of_pages d) (filesize d) (ocr_parsing d) (creation_date d)
    (num_words d) (num_chars d) (lang d) (document_path d).

Definition set_metadata_error (v : bool) (d : FARO_Document) :=
  mkDoc (file_lines d) (Some v) (content_type d) (author d)
    (num_of_pages d) (filesize d) (ocr_parsing d) (creation_date d)
    (num_words d) (num_chars d) (lang d) (document_path d).

Definition set_content_type (v : value) (d : FARO_Document) :=
  mkDoc (file_lines d) (metadata_error d) (Some v) (author d)
    (num_of_pages d) (filesize d) (ocr_parsing d) (creation_date d)
    (num_words d) (num_chars d) (lang d) (document_path d).

Definition set_author (v : value) (d : FARO_Document) :=
  mkDoc (file_lines d) (metadata_error d) (content_type d) (Some v)
    (num_of_pages d) (filesize d) (ocr_parsing d) (creation_date d)
    (num_words d) (num_chars d) (lang d) (document_path d).

Definition set_num_of_pages (v : value) (d : FARO_Document) :=
  mkDoc (file_lines d) (metadata_error d) (content_type d) (author d)
    (Some v) (filesize d) (ocr_parsing d) (creation_date d)
    (num_words d) (num_chars d) (lang d) (document_path d).

Definition set_filesize (v : value) (d : FARO_Document) :=
  mkDoc (file_lines d) (metadata_error d) (content_type d) (author d)
    (num_of_pages d) (Some v) (ocr_parsing d) (creation_date d)
    (num_words d) (num_chars d) (lang d) (document_path d).

Definition set_ocr_parsing (v : value) (d : FARO_Document) :=
  mkDoc (file_lines d) (metadata_error d) (content_type d) (author d)
    (num_of_pages d) (filesize d) (Some v) (creation_date d)
    (num_words d) (num_chars d) (lang d) (document_path d).

Definition set_creation_date (v : value) (d : FARO_Document) :=
  mkDoc (file_lines d) (metadata_error d) (content_type d) (author d)
    (num_of_pages d) (filesize d) (ocr_parsing d) (Some v)
    (num_words d) (num_chars d) (lang d) (document_path d).

Definition set_num_words (v : nat) (d : FARO_Document) :=
  mkDoc (file_lines d) (metadata_error d) (content_type d) (author d)
    (num_of_pages d) (filesize d) (ocr_parsing d) (creation_date d)
    (Some v) (num_chars d) (lang d) (document_path d).

Definition set_num_chars (v : nat) (d : FARO_Document) :=
  mkDoc (file_lines d) (metadata_error d) (content_type d) (author d)
    (num_of_pages d) (filesize d) (ocr_parsing d) (creation_date d)
    (num_words d) (Some v) (lang d) (document_path d).

Definition set_lang (v : value) (d : FARO_Document) :=
  mkDoc (file_lines d) (metadata_error d) (content_type d) (author d)
    (num_of_pages d) (filesize d) (ocr_parsing d) (creation_date d)
    (num_words d) (num_chars d) (Some v) (document_path d).

Definition set_document_path (v : string) (d : FARO_Document) :=
  mkDoc (file_lines d) (metadata_error d) (content_type d) (author d)
    (num_of_pages d) (filesize d) (ocr_parsing d) (creation_date d)
    (num_words d) (num_chars d) (lang d) (Some v).

(** ** Methods as computations on the object *)

(** A method body: it reads and assigns the attributes of [self] and either
    returns or raises. The object it leaves is returned in both cases. *)
Definition M (A : Type) : Type := FARO_Document → FARO_Document * outcome A.

Global Instance M_ret : MRet M := λ A a self, (self, Returns a).

Global Instance M_bind : MBind M := λ A B f m self,
  match m self with
  | (self', Returns a) => f a self'
  | (self', Raises e) => (self', Raises e)
  end.

(** An expression that does not touch the object. *)
Definition eval {A} (o : outcome A) : M A := λ self, (self, o).

(** [self.x = v], for the setter of [x]. *)
Definition assign (set : FARO_Document → FARO_Document) : M unit :=
  λ self, (set self, Returns tt).

(** [self.x], for the getter of [x]. *)
Definition read {A} (get : FARO_Document → A) : M A :=
  λ self, (self, Returns (get self)).

(** [try: body except Exception: handler], on an expression: every
    exception of the model is an instance of [Exception]. *)
Definition try_except_Exception {A} (body : outcome A) (handler : A) : outcome A :=
  match body with
  | Returns a => Returns a
  | Raises _ => Returns handler
  end.

(** [try: body except LangDetectException: handler]. *)
Definition try_except_LangDetectException {A} (body handler : M A) : M A :=
  λ self,
    match body self with
    | (self', Raises e) =>
        if isinstance_LangDetectException e then handler self'
        else (self', Raises e)
    | r => r
    end.

(** [for x in xs: body x]. *)
Fixpoint for_each {A} (xs : list A) (body : A → M unit) : M unit :=
  match xs with
  | [] => mret tt
  | x :: xs' => body x ;; for_each xs' body
  end.

(** [k in d] and [d[k]] on a dictionary; [v[0]] on a value. A scalar that
    is a string gives its first character, another scalar cannot be
    subscripted. *)
Definition contains (d : gmap string value) (k : string) : bool :=
  bool_decide (is_Some (d !! k)).

Definition getitem (d : gmap string value) (k : string) : outcome value :=
  match d !! k with
  | Some v => Returns v
  | None => Raises (KeyError k)
  end.

Definition first_item (v : value) : outcome scalar :=
  match v with
  | VList (x :: _) => Returns x
  | VList [] => Raises IndexError
  | VScalar (SStr (String c _)) => Returns (SStr (String c EmptyString))
  | VScalar (SStr EmptyString) => Raises IndexError
  | VScalar _ => Raises TypeError
  end.

(** [getattr(self, name, None)] for an attribute that holds a value. *)
Definition getattr_or_None (attr : option value) : value :=
  default (VScalar SNone) attr.

Section FARO_Document.

Context `{E : Externals}.

(** [get_metadata_dict]: the seven attributes under their output keys, in
    the order of insertion; an attribute never assigned shows as [None]. *)
Definition get_metadata_dict (self : FARO_Document) : list (string * value) :=
  [ ("meta:content-type", getattr_or_None (content_type self));
    ("meta:author", getattr_or_None (author self));
    ("meta:pages", getattr_or_None (num_of_pages self));
    ("meta:lang", getattr_or_None (lang self));
    ("meta:date", getattr_or_None (creation_date self));
    ("meta:filesize", getattr_or_None (filesize self));
    ("meta:ocr", getattr_or_None (ocr_parsing self)) ].

(** *** [_get_document_metadata], block by block *)

(** Lines 57-61: the content type. Both branches subscript the
    dictionary again. *)
Definition resolve_content_type (metadata : gmap string value) : outcome value :=
  match getitem metadata "Content-Type" with
  | Raises e => Raises e
  | Returns v =>
      if isinstance_list v then
        match getitem metadata "Content-Type" with
        | Raises e => Raises e
        | Returns v' =>
            match first_item v' with
            | Raises e => Raises e
            | Returns x => Returns (VScalar (SStr (Builtins.str x)))
            end
        end
      else getitem metadata "Content-Type"
  end.

(** Lines 63-84: the author, [None] unless one of seven keys is there. *)
Definition resolve_author (metadata : gmap string value) : outcome value :=
  if contains metadata "Author" then getitem metadata "Author"
  else if contains metadata "meta:author" then getitem metadata "meta:author"
  else if contains metadata "creator" then getitem metadata "creator"
  else if contains metadata "dc:creator" then getitem metadata "dc:creator"
  else if contains metadata "pdf:docinfo:creator"
    then getitem metadata "pdf:docinfo:creator"
  else if contains metadata "producer" then getitem metadata "producer"
  else if contains metadata "pdf:docinfo:producer"
    then getitem metadata "pdf:docinfo:producer"
  else Returns (VScalar SNone).

(** Lines 86-98: the page count as the dictionary has it, 1 unless one of
    three keys is there. *)
Definition lookup_num_of_pages (metadata : gmap string value) : outcome value :=
  if contains metadata "xmpTPg:NPages" then getitem metadata "xmpTPg:NPages"
  else if contains metadata "Page-Count" then getitem metadata "Page-Count"
  else if contains metadata "meta:page-count"
    then getitem metadata "meta:page-count"
  else Returns (VScalar (SInt 1)).

(** Lines 100-102: a list of page counts is summed. *)
Definition sum_num_of_pages (v : value) : outcome value :=
  match v with
  | VList xs =>
      match Builtins.ints xs with
      | Raises e => Raises e
      | Returns ns => Returns (VScalar (SInt (Builtins.sum ns)))
      end
  | VScalar _ => Returns v
  end.

(** Lines 57-61 as a step of the method. *)
Definition extract_content_type (metadata : gmap string value) : M unit :=
  v ← eval (resolve_content_type metadata);
  assign (set_content_type v).

(** Lines 63-84 as a step of the method. *)
Definition pick_author (metadata : gmap string value) : M unit :=
  assign (set_author (VScalar SNone)) ;;
  v ← eval (resolve_author metadata);
  assign (set_author v).

(** Lines 86-102 as a step of the method: the attribute is assigned, read
    back, and assigned again when it holds a list. *)
Definition number_of_pages (metadata : gmap string value) : M unit :=
  v ← eval (lookup_num_of_pages metadata);
  assign (set_num_of_pages v) ;;
  v ← read num_of_pages;
  if isinstance_list (getattr_or_None v) then
    v' ← eval (sum_num_of_pages (getattr_or_None v));
    assign (set_num_of_pages v')
  else mret tt.

(** Lines 104-106. *)
Definition pick_filesize (metadata : gmap string value) : M unit :=
  assign (set_filesize (VScalar SNone)) ;;
  if contains metadata "filesize" then
    v ← eval (getitem metadata "filesize");
    assign (set_filesize v)
  else mret tt.

(** Lines 108-111. *)
Definition pick_ocr_parsing (metadata : gmap string value) : M unit :=
  assign (set_ocr_parsing (VScalar (SBool false))) ;;
  if contains metadata "ocr_parsing" then
    v ← eval (getitem metadata "ocr_parsing");
    assign (set_ocr_parsing v)
  else mret tt.

(** Lines 113-122: the creation date as the dictionary has it. *)
Definition lookup_creation_date (metadata : gmap string value) : outcome value :=
  if contains metadata "Creation-Date" then getitem metadata "Creation-Date"
  else if contains metadata "meta:creation_date"
    then getitem metadata "meta:creation_date"
  else if contains metadata "created" then getitem metadata "created"
  else Returns (VScalar SNone).

(** Lines 113-125: of a list of dates the first one is kept. *)
Definition pick_creation_date (metadata : gmap string value) : M unit :=
  assign (set_creation_date (VScalar SNone)) ;;
  v ← eval (lookup_creation_date metadata);
  assign (set_creation_date v) ;;
  v ← read creation_date;
  if isinstance_list (getattr_or_None v) then
    x ← eval (first_item (getattr_or_None v));
    assign (set_creation_date (VScalar x))
  else mret tt.

(** Line 134: the words of one line. *)
Definition count_words (line : string) : nat :=
  length (PyStr.split_ws (PyStr.sub_nonword line)).

(** Lines 127-135: the number of words and characters of the lines. *)
Definition count_words_and_chars : M unit :=
  assign (set_num_words 0) ;;
  assign (set_num_chars 0) ;;
  lines ← read file_lines;
  match lines with
  | Some lines =>
      for_each lines (λ line,
        n ← read num_words;
        assign (set_num_words (default 0 n + count_words line)) ;;
        n ← read num_chars;
        assign (set_num_chars (default 0 n + String.length line)))
  | None => mret tt
  end.

(** Lines 137-145: the language of the dictionary, then the detected
    one, then [unk] when the detector gives up. *)
Definition detect_language (metadata : gmap string value) : M unit :=
  (if contains metadata "language" then
     v ← eval (getitem metadata "language");
     assign (set_lang v)
   else mret tt) ;;
  try_except_LangDetectException
    (lines ← read file_lines;
     text ← eval (match lines with
                  | Some lines => Returns (PyStr.join " " lines)
                  | None => Raises TypeError
                  end);
     code ← eval (detect text);
     assign (set_lang (VScalar (SStr code))))
    (assign (set_lang (VScalar (SStr "unk")))).

Definition _get_document_metadata (metadata : option (gmap string value)) : M unit :=
  match metadata with
  | None =>
      assign (set_metadata_error true)
  | Some metadata =>
      extract_content_type metadata ;;
      pick_author metadata ;;
      number_of_pages metadata ;;
      pick_filesize metadata ;;
      pick_ocr_parsing metadata ;;
      pick_creation_date metadata ;;
      count_words_and_chars ;;
      detect_language metadata
  end.

(** *** [_preprocess_file_lines] *)

(** The body of the loop, lines 163-171, on the list built so far. The
    assignment to [new_file_lines[-1]] is only reached on a list that is
    not empty. *)
Definition preprocess_step (join_lines : bool)
    (new_file_lines : list string) (line : string) : list string :=
  if negb join_lines then
    if (String.length (PyStr.strip_chars "" line) =? 0)
       || (length new_file_lines =? 0)
    then new_file_lines ++ [preprocess_text line]
    else
      match last new_file_lines with
      | Some prev =>
          <[pred (length new_file_lines) :=
              PyStr.format2 prev (preprocess_text line)]> new_file_lines
      | None => new_file_lines
      end
  else new_file_lines ++ [preprocess_text line].

Definition _preprocess_file_lines (file_lines : option string)
    (join_lines : bool) : list string :=
  let file_lines :=
    match file_lines with
    | Some text => PyStr.split PyStr.LF (PyStr.strip text)
    | None => []
    end in
  fold_left (preprocess_step join_lines) file_lines [].

(** *** [__init__] *)

Definition __init__ (document_path : string) (split_lines : bool) : M unit :=
  (* parse input file and join sentences if requested *)
  parsed ← eval (try_except_Exception (parse_file document_path)
                   (Some EmptyString, None));
  assign (set_file_lines (_preprocess_file_lines parsed.1 split_lines)) ;;
  _get_document_metadata parsed.2 ;;
  (* store the document path *)
  assign (set_document_path document_path).

(** [FARO_Document(document_path, split_lines)]: the object when
    [__init__] returns, the exception when it raises. *)
Definition construct (document_path : string) (split_lines : bool)
    : outcome FARO_Document :=
  match __init__ document_path split_lines new_object with
  | (self, Returns _) => Returns self
  | (_, Raises e) => Raises e
  end.

End FARO_Document.

(** ** Sample collaborators and inputs *)

(** A parser that hands back a fixed text and dictionary, a cleaner that
    leaves lines as they are, a detector that always answers [en]. *)
Definition fixed_externals (text : option string)
    (metadata : option (gmap string value)) : Externals :=
  {| parse_file := λ _, Returns (text, metadata);
     preprocess_text := λ line, line;
     detect := λ _, Returns "en" |}.

(** The same with a detector that finds no language. *)
Definition undetected_externals (text : option string)
    (metadata : option (gmap string value)) : Externals :=
  {| parse_file := λ _, Returns (text, metadata);
     preprocess_text := λ line, line;
     detect := λ _, Raises LangDetectException |}.

(** A parser that fails on every file. *)
Definition failing_externals (e : exn) : Externals :=
  {| parse_file := λ _, Raises e;
     preprocess_text := λ line, line;
     detect := λ _, Returns "en" |}.

Definition hello_world : string :=
  PyStr.unlines ["Hello."; ""; "World."].

Definition two_lines_and_one : string :=
  PyStr.unlines ["a"; "b"; ""; "c"].

Definition author_metadata : gmap string value :=
  {[ "meta:author" := VScalar (SStr "Jane Doe") ]}.

Definition html_metadata : gmap string value :=
  {[ "Content-Type" := VList [SStr "text/html"; SStr "text/plain"];
     "Page-Count" := VList [SStr "3"; SStr "4"];
     "creator" := VScalar (SStr "Jane Doe") ]}.

Definition negative_metadata : gmap string value :=
  {[ "Content-Type" := VScalar (SStr "application/pdf");
     "Page-Count" := VList [SStr "-1"; SStr "-2"] ]}.

Definition numbered_metadata : gmap string value :=
  {[ "Content-Type" := VList [SInt 5] ]}.

Definition pdf_metadata : gmap string value :=
  {[ "Content-Type" := VScalar (SStr "application/pdf");
     "xmpTPg:NPages" := VScalar (SStr "12");
     "meta:author" := VScalar (SStr "Jane Doe");
     "language" := VScalar (SStr "fr") ]}.

Definition pdf_externals : Externals :=
  fixed_externals (Some hello_world) (Some pdf_metadata).

(** The document built from [hello_world] and [pdf_metadata]. *)
Definition pdf_document : FARO_Document :=
  mkDoc (Some ["Hello."; " World."]) None
    (Some (VScalar (SStr "application/pdf")))
    (Some (VScalar (SStr "Jane Doe")))
    (Some (VScalar (SStr "12")))
    (Some (VScalar SNone)) (Some (VScalar (SBool false)))
    (Some (VScalar SNone)) (Some 2) (Some 13)
    (Some (VScalar (SStr "en"))) (Some "a.pdf").

Definition html_externals : Externals :=
  fixed_externals (Some hello_world) (Some html_metadata).

(** The document built from [hello_world] and [html_metadata]. *)
Definition html_document : FARO_Document :=
  mkDoc (Some ["Hello."; " World."]) None
    (Some (VScalar (SStr "text/html")))
    (Some (VScalar (SStr "Jane Doe")))
    (Some (VScalar (SInt 7)))
    (Some (VScalar SNone)) (Some (VScalar (SBool false)))
    (Some (VScalar SNone)) (Some 2) (Some 13)
    (Some (VScalar (SStr "en"))) (Some "a.html").

(** ** The specification's vocabulary *)

(** A fallback chain: the value under the first key of [keys] that the
    dictionary has. *)
Fixpoint first_present (keys : list string) (d : gmap string value)
    : option value :=
  match keys with
  | [] => None
  | k :: keys' =>
      match d !! k with
      | Some v => Some v
      | None => first_present keys' d
      end
  end.

Definition author_keys : list string :=
  [ "Author"; "meta:author"; "creator"; "dc:creator"; "pdf:docinfo:creator";
    "producer"; "pdf:docinfo:producer" ].

Definition page_count_keys : list string :=
  [ "xmpTPg:NPages"; "Page-Count"; "meta:page-count" ].

Definition creation_date_keys : list string :=
  [ "Creation-Date"; "meta:creation_date"; "created" ].

(** The page count the specification describes: the value under the first
    alias, a list being replaced by the sum of its elements read as
    integers, and 1 without any alias. *)
Definition page_count_of (d : gmap string value) : outcome value :=
  match first_present page_count_keys d with
  | None => Returns (VScalar (SInt 1))
  | Some (VScalar x) => Returns (VScalar x)
  | Some (VList xs) =>
      match Builtins.ints xs with
      | Returns ns => Returns (VScalar (SInt (foldr Z.add 0%Z ns)))
      | Raises e => Raises e
      end
  end.

(** A value that is an integer and not negative. *)
Definition is_nonneg_int (v : value) : bool :=
  match v with
  | VScalar (SInt n) => bool_decide (0 ≤ n)%Z
  | _ => false
  end.

(** The page-count sources from which a non-negative integer comes out: no
    key at all, a non-negative integer, a list of elements that read as
    non-negative integers. *)
Definition nonneg_page_source (source : option value) : bool :=
  match source with
  | None => true
  | Some (VScalar (SInt n)) => (0 <=? n)%Z
  | Some (VScalar _) => false
  | Some (VList xs) =>
      match Builtins.ints xs with
      | Returns ns => forallb (λ n, 0 <=? n)%Z ns
      | Raises _ => false
      end
  end.

(** A blank line is an empty one. *)
Definition is_blank (line : string) : bool := bool_decide (line = EmptyString).

(** Paragraph units: the lines cut before every blank line, so that the
    first line and each blank line start a unit. *)
Fixpoint paragraph_units (lines : list string) : list (list string) :=
  match lines with
  | [] => []
  | line :: rest =>
      match paragraph_units rest with
      | (next :: unit) :: units =>
          if is_blank next then [line] :: (next :: unit) :: units
          else (line :: next :: unit) :: units
      | _ => [[line]]
      end
  end.

(** The state a method leaves and the way it ends. *)
Definition final {A} (m : M A) (self : FARO_Document) : FARO_Document :=
  (m self).1.

Definition ending {A} (m : M A) (self : FARO_Document) : outcome A :=
  (m self).2.

(** A method that leaves an attribute as it found it, however it ends. *)
Definition preserves {A B} (get : FARO_Document → A) (m : M B) : Prop :=
  ∀ self, get (final m self) = get self.

(** Every exception that leaves the method satisfies [P]. *)
Definition raises_only {A} (P : exn → Prop) (m : M A) : Prop :=
  ∀ self e, ending m self = Raises e → P e.

(** The collaborators with another parser. *)
Definition with_parser `{E : Externals}
    (parse : string → outcome (option string * option (gmap string value)))
    : Externals :=
  {| parse_file := parse;
     preprocess_text := preprocess_text;
     detect := detect |}.

Section Rendering.

Context `{E : Externals}.

(** A unit as one string: its cleaned lines joined by a space. *)
Definition render (unit : list string) : string :=
  PyStr.join " " (preprocess_text <$> unit).

(** What the loop makes of the units still to come when the last group
    built so far is [u]. *)
Definition absorb (u : string) (units : list (list string)) : list string :=
  match units with
  | (line :: unit) :: units' =>
      if is_blank line then u :: (render <$> units)
      else PyStr.format2 u (render (line :: unit)) :: (render <$> units')
  | _ => u :: (render <$> units)
  end.

End Rendering.

(** ** The remaining steps, in the same vocabulary *)

(** The creation date: the value under the first alias, a list being
    replaced by its first element, and [None] without any alias. *)
Definition creation_date_of (d : gmap string value) : outcome value :=
  match first_present creation_date_keys d with
  | None => Returns (VScalar SNone)
  | Some (VScalar x) => Returns (VScalar x)
  | Some (VList (x :: _)) => Returns (VScalar x)
  | Some (VList []) => Raises IndexError
  end.

(** The seventeen keys that [_get_document_metadata] names. *)
Definition known_keys : list string :=
  "Content-Type" :: author_keys ++ page_count_keys
  ++ [ "filesize"; "ocr_parsing" ] ++ creation_date_keys ++ [ "language" ].

(** The counts of lines 127-135 over a list of lines. *)
Definition total_words (lines : list string) : nat :=
  sum_list_with count_words lines.

Definition total_chars (lines : list string) : nat :=
  sum_list_with String.length lines.

(** The lines after the first one that are blank. *)
Definition later_blank_lines (lines : list string) : list string :=
  filter (λ line, is_blank line = true) (tail lines).

(** The way a computation ends, its result forgotten, and two endings in
    sequence: the second counts only when the first returns. *)
Definition void {A} (o : outcome A) : outcome unit :=
  match o with
  | Returns _ => Returns tt
  | Raises e => Raises e
  end.

Definition and_then (first next : outcome unit) : outcome unit :=
  match first with
  | Returns _ => next
  | Raises e => Raises e
  end.

Section Language.

Context `{E : Externals}.

(** The language of a list of lines: the detector's answer on the lines
    joined by spaces, [unk] when it raises its own exception. *)
Definition language_of (lines : list string) : outcome string :=
  match detect (PyStr.join " " lines) with
  | Returns code => Returns code
  | Raises e =>
      if isinstance_LangDetectException e then Returns "unk" else Raises e
  end.

(** The document that construction makes of the preprocessed lines and of
    resolved values. *)
Definition document_of (document_path : string) (lines : list string)
    (metadata : gmap string value) (ct pages date : value) (code : string)
    : FARO_Document :=
  mkDoc (Some lines) None (Some ct)
    (Some (default (VScalar SNone) (first_present author_keys metadata)))
    (Some pages)
    (Some (default (VScalar SNone) (metadata !! "filesize")))
    (Some (default (VScalar (SBool false)) (metadata !! "ocr_parsing")))
    (Some date)
    (Some (total_words lines)) (Some (total_chars lines))
    (Some (VScalar (SStr code))) (Some document_path).

End Language.

(** Every character of a string satisfies [p]. *)
Fixpoint all_chars (p : ascii → bool) (s : string) : bool :=
  match s with
  | EmptyString => true
  | String c s' => p c && all_chars p s'
  end.

(** More sample inputs: a map in which three steps would fail, the same
    with a content type, a map with a date list and counts, and a detector
    that breaks down. *)
Definition broken_metadata : gmap string value :=
  {[ "Page-Count" := VList [SStr "three"];
     "Creation-Date" := VList [] ]}.

Definition typed_broken_metadata : gmap string value :=
  <["Content-Type" := VScalar (SStr "text/plain")]> broken_metadata.

Definition dated_metadata : gmap string value :=
  {[ "Content-Type" := VScalar (SStr "application/pdf");
     "created" := VList [SStr "2020-01-02"; SStr "2020-01-03"];
     "filesize" := VScalar (SInt 2048);
     "ocr_parsing" := VScalar (SBool true);
     "language" := VScalar (SStr "fr") ]}.

Definition crashing_externals : Externals :=
  {| parse_file := λ _, Returns (Some hello_world, Some dated_metadata);
     preprocess_text := λ line, line;
     detect := λ _, Raises (OtherException "RuntimeError") |}.

Definition dated_externals : Externals :=
  fixed_externals (Some hello_world) (Some dated_metadata).

(** ** Strings and lists *)

Lemma append_assoc (a b c : string) : (a +:+ b) +:+ c = a +:+ (b +:+ c).
Proof.
  induction a as [|x a IH]; [done |].
  exact (f_equal (String x) IH).
Qed.

Lemma lstrip_by_nothing (s : string) : PyStr.lstrip_by (λ _, false) s = s.
Proof. by destruct s. Qed.

Lemma rstrip_by_nothing (s : string) : PyStr.rstrip_by (λ _, false) s = s.
Proof.
  induction s as [|c s IH]; simpl; [done |].
  rewrite IH. by destruct s.
Qed.

Lemma length_append (a b : string) :
  String.length (a +:+ b) = String.length a + String.length b.
Proof.
  induction a as [|x a IH]; [done |].
  change (S (String.length (a +:+ b)) = S (String.length a) + String.length b).
  by rewrite IH.
Qed.

(** [line.strip("")] removes nothing. *)
Lemma strip_chars_empty (s : string) : PyStr.strip_chars EmptyString s = s.
Proof.
  unfold PyStr.strip_chars. simpl.
  by rewrite lstrip_by_nothing, rstrip_by_nothing.
Qed.

Lemma length_zero_blank (s : string) :
  (String.length s =? 0) = is_blank s.
Proof. by destruct s. Qed.

Lemma sum_foldr (ns : list Z) : Builtins.sum ns = foldr Z.add 0%Z ns.
Proof.
  unfold Builtins.sum.
  enough (∀ a, fold_left Z.add ns a = (a + foldr Z.add 0 ns)%Z) as H
    by (rewrite H; lia).
  induction ns as [|n ns IH]; intros a; simpl; [lia |].
  rewrite IH. lia.
Qed.

Lemma sum_nonneg (ns : list Z) : Forall (λ n, 0 ≤ n)%Z ns → (0 ≤ Builtins.sum ns)%Z.
Proof.
  rewrite sum_foldr. induction 1; simpl; lia.
Qed.

(** ** Paragraph units *)

Lemma paragraph_units_cons (line : string) (rest : list string) :
  ∃ unit units, paragraph_units (line :: rest) = (line :: unit) :: units.
Proof.
  simpl. destruct (paragraph_units rest) as [|[|next unit] units]; eauto.
  destruct (is_blank next); eauto.
Qed.

Lemma paragraph_units_concat (lines : list string) :
  concat (paragraph_units lines) = lines.
Proof.
  induction lines as [|line rest IH]; [done |]. simpl.
  destruct (paragraph_units rest) as [|[|next unit] units] eqn:Hu.
  - simpl in IH. by subst rest.
  - destruct rest as [|l r]; [done |].
    destruct (paragraph_units_cons l r) as (u & us & Hc). congruence.
  - destruct (is_blank next); simpl in *; by rewrite IH.
Qed.

(** Inside a unit only the first line can be blank. *)
Lemma paragraph_units_inner (lines : list string) :
  Forall (λ unit, ∃ line rest,
            unit = line :: rest ∧ Forall (λ l, is_blank l = false) rest)
         (paragraph_units lines).
Proof.
  induction lines as [|line rest IH]; [constructor |]. simpl.
  destruct (paragraph_units rest) as [|[|next unit] units] eqn:Hu.
  - repeat constructor. by exists line, [].
  - repeat constructor. by exists line, [].
  - inversion IH as [|? ? (l & r & Heq & Hr) Hrest]; subst.
    injection Heq as -> ->.
    destruct (is_blank l) eqn:Hb.
    + constructor; [by exists line, [] |].
      constructor; [by exists l, r | done].
    + constructor; [| done].
      exists line, (l :: r). split; [done |]. by constructor.
Qed.

(** Every unit but the first starts with a blank line. *)
Lemma paragraph_units_heads (lines : list string) :
  Forall (λ unit, ∃ rest, unit = EmptyString :: rest)
         (tail (paragraph_units lines)).
Proof.
  induction lines as [|line rest IH]; [constructor |]. simpl.
  destruct (paragraph_units rest) as [|[|next unit] units] eqn:Hu;
    [constructor | constructor |].
  destruct (is_blank next) eqn:Hb; simpl in *; [| done].
  constructor; [| done].
  exists unit. unfold is_blank in Hb. by apply bool_decide_eq_true in Hb as ->.
Qed.

(** ** The preprocessing loop *)

Section Preprocessing.

Context `{E : Externals}.

Lemma render_cons (line next : string) (unit : list string) :
  render (line :: next :: unit)
  = PyStr.format2 (preprocess_text line) (render (next :: unit)).
Proof. done. Qed.

Lemma absorb_first (line : string) (rest : list string) :
  absorb (preprocess_text line) (paragraph_units rest)
  = render <$> paragraph_units (line :: rest).
Proof.
  simpl. destruct (paragraph_units rest) as [|[|next unit] units] eqn:Hu.
  - done.
  - destruct rest as [|l r]; [done |].
    destruct (paragraph_units_cons l r) as (u & us & Hc). congruence.
  - simpl. by destruct (is_blank next).
Qed.

Lemma absorb_next (u line : string) (rest : list string) :
  is_blank line = false →
  absorb (PyStr.format2 u (preprocess_text line)) (paragraph_units rest)
  = absorb u (paragraph_units (line :: rest)).
Proof.
  intros Hline. simpl.
  destruct (paragraph_units rest) as [|[|next unit] units] eqn:Hu.
  - simpl. by rewrite Hline.
  - destruct rest as [|l r]; [done |].
    destruct (paragraph_units_cons l r) as (u' & us & Hc). congruence.
  - simpl. destruct (is_blank next) eqn:Hnext; simpl; rewrite Hline.
    + done.
    + f_equal. rewrite render_cons. unfold PyStr.format2.
      by rewrite !append_assoc.
Qed.

Lemma preprocess_step_split (acc : list string) (line : string) :
  preprocess_step true acc line = acc ++ [preprocess_text line].
Proof. done. Qed.

Lemma preprocess_step_blank (acc : list string) (line : string) :
  is_blank line = true →
  preprocess_step false acc line = acc ++ [preprocess_text line].
Proof.
  intros Hb. unfold preprocess_step. simpl.
  by rewrite strip_chars_empty, length_zero_blank, Hb.
Qed.

Lemma preprocess_step_first (line : string) :
  preprocess_step false [] line = [preprocess_text line].
Proof.
  unfold preprocess_step. simpl. by rewrite orb_true_r.
Qed.

Lemma preprocess_step_merge (pre : list string) (u line : string) :
  is_blank line = false →
  preprocess_step false (pre ++ [u]) line
  = pre ++ [PyStr.format2 u (preprocess_text line)].
Proof.
  intros Hb. unfold preprocess_step. simpl.
  rewrite strip_chars_empty, length_zero_blank, Hb, last_snoc.
  rewrite length_app. simpl.
  replace (length pre + 1 =? 0) with false
    by (symmetry; apply Nat.eqb_neq; lia).
  simpl. replace (pred (length pre + 1)) with (length pre + 0) by lia.
  by rewrite insert_app_r.
Qed.

Lemma fold_split (lines acc : list string) :
  fold_left (preprocess_step true) lines acc
  = acc ++ (preprocess_text <$> lines).
Proof.
  revert acc. induction lines as [|line rest IH]; intros acc; simpl.
  - by rewrite app_nil_r.
  - rewrite IH, preprocess_step_split. by rewrite <- app_assoc.
Qed.

Lemma fold_merge (lines pre : list string) (u : string) :
  fold_left (preprocess_step false) lines (pre ++ [u])
  = pre ++ absorb u (paragraph_units lines).
Proof.
  revert pre u. induction lines as [|line rest IH]; intros pre u.
  - done.
  - cbn [fold_left]. destruct (is_blank line) eqn:Hb.
    + rewrite preprocess_step_blank by done.
      rewrite IH, absorb_first, <- app_assoc. f_equal.
      destruct (paragraph_units_cons line rest) as (unit & units & ->).
      simpl. by rewrite Hb.
    + rewrite preprocess_step_merge by done.
      by rewrite IH, absorb_next.
Qed.

Lemma fold_merge_nil (lines : list string) :
  fold_left (preprocess_step false) lines []
  = render <$> paragraph_units lines.
Proof.
  destruct lines as [|line rest]; [done |].
  cbn [fold_left]. rewrite preprocess_step_first.
  change [preprocess_text line] with ([] ++ [preprocess_text line]).
  rewrite fold_merge. apply absorb_first.
Qed.

End Preprocessing.

(** ** Running methods *)

Lemma bind_run {A B} (m : M A) (f : A → M B) (self : FARO_Document) :
  (m ≫= f) self
  = match m self with
    | (self', Returns a) => f a self'
    | (self', Raises e) => (self', Raises e)
    end.
Proof. done. Qed.

Lemma bind_returns {A B} (m : M A) (f : A → M B) self self' a :
  m self = (self', Returns a) → (m ≫= f) self = f a self'.
Proof. intros H. by rewrite bind_run, H. Qed.

Lemma bind_returns_inv {A B} (m : M A) (f : A → M B) self self2 b :
  (m ≫= f) self = (self2, Returns b) →
  ∃ a self1, m self = (self1, Returns a) ∧ f a self1 = (self2, Returns b).
Proof.
  rewrite bind_run. destruct (m self) as [self1 [a|e]]; [eauto | done].
Qed.

Lemma preserves_ret {A B} (get : FARO_Document → A) (b : B) :
  preserves get (mret b).
Proof. done. Qed.

Lemma preserves_eval {A B} (get : FARO_Document → A) (o : outcome B) :
  preserves get (eval o).
Proof. done. Qed.

Lemma preserves_read {A B} (get : FARO_Document → A) (g : FARO_Document → B) :
  preserves get (read g).
Proof. done. Qed.

Lemma preserves_assign {A} (get : FARO_Document → A) set :
  (∀ d, get (set d) = get d) → preserves get (assign set).
Proof. intros H self. apply H. Qed.

Lemma preserves_bind {A B C} (get : FARO_Document → A) (m : M B) (f : B → M C) :
  preserves get m → (∀ b, preserves get (f b)) → preserves get (m ≫= f).
Proof.
  intros Hm Hf self. unfold final. rewrite bind_run.
  specialize (Hm self). unfold final in Hm.
  destruct (m self) as [self1 [b|e]]; simpl in *; [| done].
  rewrite <- Hm. apply Hf.
Qed.

Lemma preserves_for_each {A B} (get : FARO_Document → A) (xs : list B) body :
  (∀ x, preserves get (body x)) → preserves get (for_each xs body).
Proof.
  intros Hbody. induction xs as [|x xs IH]; simpl.
  - apply preserves_ret.
  - apply preserves_bind; [apply Hbody | by intros []].
Qed.

Lemma preserves_try {A B} (get : FARO_Document → A) (body handler : M B) :
  preserves get body → preserves get handler →
  preserves get (try_except_LangDetectException body handler).
Proof.
  intros Hb Hh self. unfold final, try_except_LangDetectException.
  specialize (Hb self). unfold final in Hb.
  destruct (body self) as [self1 [b|e]]; simpl in *; [done |].
  destruct (isinstance_LangDetectException e); simpl; [| done].
  rewrite <- Hb. apply Hh.
Qed.

Create HintDb preserves.

#[global] Hint Resolve preserves_ret preserves_eval preserves_read
  : preserves.

(** The routine case: a sequence of steps none of which assigns the
    attribute. *)
Ltac solve_preserves :=
  repeat first
    [ progress intros
    | solve [auto with preserves]
    | apply preserves_bind
    | apply preserves_assign; reflexivity
    | apply preserves_for_each
    | apply preserves_try
    | match goal with
      | |- preserves _ (if ?c then _ else _) => destruct c
      | |- preserves _ (match ?x with _ => _ end) => destruct x
      end ].

(** Unfolding the steps of a method on a given object. *)
Ltac run_method :=
  unfold mbind, M_bind, mret, M_ret, eval, assign, read; simpl.

Lemma contains_Some (d : gmap string value) k v :
  d !! k = Some v → contains d k = true.
Proof. intros H. unfold contains. rewrite H. by apply bool_decide_eq_true_2. Qed.

Lemma contains_None (d : gmap string value) k :
  d !! k = None → contains d k = false.
Proof.
  intros H. unfold contains. rewrite H.
  apply bool_decide_eq_false_2. by intros [? ?].
Qed.

(** A guarded lookup: [d[k] if k in d else rest]. *)
Lemma guarded_lookup (d : gmap string value) k (rest : outcome value) :
  (if contains d k then getitem d k else rest)
  = match d !! k with Some v => Returns v | None => rest end.
Proof.
  unfold getitem. destruct (d !! k) as [v|] eqn:H.
  - by rewrite (contains_Some d k v).
  - by rewrite contains_None.
Qed.

Section Steps.

Context `{E : Externals}.

(** The cascade of lines 63-84 is the fallback chain over [author_keys]. *)
Lemma resolve_author_chain (metadata : gmap string value) :
  resolve_author metadata
  = Returns (default (VScalar SNone) (first_present author_keys metadata)).
Proof.
  unfold resolve_author. rewrite !guarded_lookup. simpl.
  repeat (match goal with |- context [?d !! ?k] => destruct (d !! k) end;
          [done |]).
  done.
Qed.

(** The cascade of lines 86-98 is the fallback chain over
    [page_count_keys], with 1 at its end. *)
Lemma lookup_num_of_pages_chain (metadata : gmap string value) :
  lookup_num_of_pages metadata
  = Returns (default (VScalar (SInt 1))
               (first_present page_count_keys metadata)).
Proof.
  unfold lookup_num_of_pages. rewrite !guarded_lookup. simpl.
  repeat (match goal with |- context [?d !! ?k] => destruct (d !! k) end;
          [done |]).
  done.
Qed.

Lemma lookup_creation_date_chain (metadata : gmap string value) :
  lookup_creation_date metadata
  = Returns (default (VScalar SNone)
               (first_present creation_date_keys metadata)).
Proof.
  unfold lookup_creation_date. rewrite !guarded_lookup. simpl.
  repeat (match goal with |- context [?d !! ?k] => destruct (d !! k) end;
          [done |]).
  done.
Qed.

Lemma extract_content_type_run (metadata : gmap string value) self :
  extract_content_type metadata self
  = match resolve_content_type metadata with
    | Returns v => (set_content_type v self, Returns tt)
    | Raises e => (self, Raises e)
    end.
Proof.
  unfold extract_content_type. rewrite bind_run. unfold eval.
  by destruct (resolve_content_type metadata).
Qed.

Lemma pick_author_run (metadata : gmap string value) self :
  pick_author metadata self
  = (set_author (default (VScalar SNone)
                   (first_present author_keys metadata)) self,
     Returns tt).
Proof.
  unfold pick_author. rewrite !bind_run. unfold assign, eval.
  by rewrite resolve_author_chain.
Qed.

(** Lines 86-102 compute the page count of the specification; when an
    element of the list is not an integer the list stays in the
    attribute and the exception goes on. *)
Lemma number_of_pages_run (metadata : gmap string value) self :
  number_of_pages metadata self
  = match page_count_of metadata with
    | Returns v => (set_num_of_pages v self, Returns tt)
    | Raises e =>
        (set_num_of_pages
           (default (VScalar (SInt 1))
              (first_present page_count_keys metadata)) self,
         Raises e)
    end.
Proof.
  unfold number_of_pages, page_count_of.
  rewrite lookup_num_of_pages_chain.
  destruct (first_present page_count_keys metadata) as [[x|xs]|];
    [done | | done].
  run_method.
  destruct (Builtins.ints xs) as [ns|e]; [| done].
  by rewrite sum_foldr.
Qed.

End Steps.

(** ** Which exceptions a method lets out *)

Lemma raises_only_ret {A} (P : exn → Prop) (a : A) : raises_only P (mret a).
Proof. by intros self e. Qed.

Lemma raises_only_assign (P : exn → Prop) set : raises_only P (assign set).
Proof. by intros self e. Qed.

Lemma raises_only_read {A} (P : exn → Prop) (get : FARO_Document → A) :
  raises_only P (read get).
Proof. by intros self e. Qed.

Lemma raises_only_eval {A} (P : exn → Prop) (o : outcome A) :
  (∀ e, o = Raises e → P e) → raises_only P (eval o).
Proof. intros H self e. apply H. Qed.

Lemma raises_only_bind {A B} (P : exn → Prop) (m : M A) (f : A → M B) :
  raises_only P m → (∀ a, raises_only P (f a)) → raises_only P (m ≫= f).
Proof.
  intros Hm Hf self e. unfold ending. rewrite bind_run.
  specialize (Hm self). unfold ending in Hm.
  destruct (m self) as [self1 [a|e1]]; simpl in *.
  - apply Hf.
  - intros [= ->]. by apply Hm.
Qed.

Lemma raises_only_for_each {A} (P : exn → Prop) (xs : list A) body :
  (∀ x, raises_only P (body x)) → raises_only P (for_each xs body).
Proof.
  intros Hbody. induction xs as [|x xs IH]; simpl.
  - apply raises_only_ret.
  - apply raises_only_bind; [apply Hbody | by intros []].
Qed.

Lemma raises_only_try {A} (P : exn → Prop) (body handler : M A) :
  raises_only P body → raises_only P handler →
  raises_only P (try_except_LangDetectException body handler).
Proof.
  intros Hb Hh self e. unfold ending, try_except_LangDetectException.
  specialize (Hb self). unfold ending in Hb.
  destruct (body self) as [self1 [a|e1]]; simpl in *; [done |].
  destruct (isinstance_LangDetectException e1); simpl.
  - apply Hh.
  - intros [= ->]. by apply Hb.
Qed.

Ltac solve_raises_only :=
  repeat first
    [ progress intros
    | apply raises_only_bind
    | apply raises_only_assign
    | apply raises_only_for_each
    | apply raises_only_try
    | apply raises_only_ret
    | apply raises_only_read
    | match goal with
      | |- raises_only _ (if ?c then _ else _) => destruct c eqn:?
      | |- raises_only _ (match ?x with _ => _ end) => destruct x eqn:?
      end ].

Lemma final_bind_returns {A B} (m : M A) (f : A → M B) self self' a :
  m self = (self', Returns a) → final (m ≫= f) self = final (f a) self'.
Proof. intros H. unfold final. by rewrite (bind_returns _ _ _ _ _ H). Qed.

Lemma ints_raises (xs : list scalar) e :
  Builtins.ints xs = Raises e → e = TypeError ∨ e = ValueError.
Proof.
  induction xs as [|x xs IH]; simpl; [done |].
  destruct (Builtins.int x) as [n|e1] eqn:Hx.
  - destruct (Builtins.ints xs) as [ns|e2]; [done |].
    intros [= ->]. by apply IH.
  - intros [= ->]. destruct x as [| | |s]; simpl in Hx; try done.
    + injection Hx as <-. by left.
    + destruct (Builtins.int_of_str s); [done |]. injection Hx as <-. by right.
Qed.

Lemma first_item_list_raises (xs : list scalar) e :
  first_item (VList xs) = Raises e → e = IndexError.
Proof. destruct xs; simpl; congruence. Qed.

Lemma getitem_guarded (d : gmap string value) k e :
  contains d k = true → getitem d k ≠ Raises e.
Proof.
  unfold contains, getitem. intros H.
  apply bool_decide_eq_true in H as [v ->]. done.
Qed.

Section Methods.

Context `{E : Externals}.

(** The steps after the content type, as [_get_document_metadata] chains
    them. *)
Lemma get_document_metadata_run (metadata : gmap string value) self :
  _get_document_metadata (Some metadata) self
  = match resolve_content_type metadata with
    | Raises e => (self, Raises e)
    | Returns ct =>
        (number_of_pages metadata ;;
         pick_filesize metadata ;;
         pick_ocr_parsing metadata ;;
         pick_creation_date metadata ;;
         count_words_and_chars ;;
         detect_language metadata)
          (set_author (default (VScalar SNone)
                         (first_present author_keys metadata))
             (set_content_type ct self))
    end.
Proof.
  unfold _get_document_metadata.
  rewrite bind_run, extract_content_type_run.
  destruct (resolve_content_type metadata) as [ct|e]; [| done].
  by rewrite bind_run, pick_author_run.
Qed.

Lemma init_run (document_path : string) (split_lines : bool) :
  __init__ document_path split_lines new_object
  = let parsed := match parse_file document_path with
                  | Returns r => r
                  | Raises _ => (Some EmptyString, None)
                  end in
    match _get_document_metadata parsed.2
            (set_file_lines (_preprocess_file_lines parsed.1 split_lines)
               new_object) with
    | (self, Returns _) => (set_document_path document_path self, Returns tt)
    | (self, Raises e) => (self, Raises e)
    end.
Proof.
  unfold __init__. rewrite bind_run. unfold eval.
  destruct (parse_file document_path) as [[text metadata]|e];
    cbn [try_except_Exception fst snd];
    rewrite bind_run; unfold assign at 1; rewrite bind_run;
    reflexivity.
Qed.

Lemma preprocess_empty (split_lines : bool) :
  _preprocess_file_lines (Some EmptyString) split_lines
  = [preprocess_text EmptyString].
Proof. by destruct split_lines. Qed.

Lemma steps_preserve_author (metadata : gmap string value) :
  preserves author
    (number_of_pages metadata ;; pick_filesize metadata ;;
     pick_ocr_parsing metadata ;; pick_creation_date metadata ;;
     count_words_and_chars ;; detect_language metadata).
Proof.
  unfold number_of_pages, pick_filesize, pick_ocr_parsing,
    pick_creation_date, count_words_and_chars, detect_language.
  solve_preserves.
Qed.

Lemma steps_preserve_content_type (metadata : gmap string value) :
  preserves content_type
    (number_of_pages metadata ;; pick_filesize metadata ;;
     pick_ocr_parsing metadata ;; pick_creation_date metadata ;;
     count_words_and_chars ;; detect_language metadata).
Proof.
  unfold number_of_pages, pick_filesize, pick_ocr_parsing,
    pick_creation_date, count_words_and_chars, detect_language.
  solve_preserves.
Qed.

Lemma steps_preserve_num_of_pages (metadata : gmap string value) :
  preserves num_of_pages
    (pick_filesize metadata ;;
     pick_ocr_parsing metadata ;; pick_creation_date metadata ;;
     count_words_and_chars ;; detect_language metadata).
Proof.
  unfold pick_filesize, pick_ocr_parsing,
    pick_creation_date, count_words_and_chars, detect_language.
  solve_preserves.
Qed.

Lemma steps_preserve_file_lines (metadata : gmap string value) :
  preserves file_lines
    (number_of_pages metadata ;; pick_filesize metadata ;;
     pick_ocr_parsing metadata ;; pick_creation_date metadata ;;
     count_words_and_chars).
Proof.
  unfold number_of_pages, pick_filesize, pick_ocr_parsing,
    pick_creation_date, count_words_and_chars.
  solve_preserves.
Qed.

End Methods.

(** ** Preprocessing of the text *)

Section PreprocessingProperties.

Context `{E : Externals}.

(** C2 (amended). Preprocessing the raw text ["Hello.\n\nWorld."] with
    the flag false yields exactly two line groups: the cleaned
    ["Hello."], and a second group made of the cleaned blank line, one
    space and the cleaned ["World."]. The second group is never the
    cleaned ["World."] alone: it is longer by at least the space. *)
Theorem preprocess_hello_world :
  _preprocess_file_lines (Some hello_world) false
  = [ preprocess_text "Hello.";
      preprocess_text "" +:+ " " +:+ preprocess_text "World." ]
  ∧ String.length (preprocess_text "World.")
    < String.length (preprocess_text "" +:+ " " +:+ preprocess_text "World.").
Proof.
  split.
  - unfold _preprocess_file_lines.
    change (PyStr.split PyStr.LF (PyStr.strip hello_world))
      with ["Hello."; ""; "World."].
    by rewrite fold_merge_nil.
  - rewrite !length_append. simpl. lia.
Qed.

(** C3 (amended). For every raw text, preprocessing strips it, splits it
    on newlines and cleans each line. When the flag is set, every cleaned
    line is kept as a group of its own, nothing is concatenated. When the
    flag is not set, consecutive lines are concatenated with a space into
    paragraph units: the units partition the lines in order, a unit
    starts at the first line and at every blank (empty) line, and no
    other line of a unit is blank. Without a text there is no group. *)
Theorem preprocess_file_lines_groups (text : string) :
  let lines := PyStr.split PyStr.LF (PyStr.strip text) in
  _preprocess_file_lines (Some text) true = (preprocess_text <$> lines)
  ∧ _preprocess_file_lines (Some text) false
    = ((λ unit, PyStr.join " " (preprocess_text <$> unit))
         <$> paragraph_units lines)
  ∧ concat (paragraph_units lines) = lines
  ∧ Forall (λ unit, ∃ line rest,
              unit = line :: rest ∧ Forall (λ l, l ≠ EmptyString) rest)
      (paragraph_units lines)
  ∧ Forall (λ unit, ∃ rest, unit = EmptyString :: rest)
      (tail (paragraph_units lines))
  ∧ (∀ join_lines, _preprocess_file_lines None join_lines = []).
Proof.
  intros lines. repeat split.
  - unfold _preprocess_file_lines. fold lines. by rewrite fold_split.
  - unfold _preprocess_file_lines. fold lines. by rewrite fold_merge_nil.
  - apply paragraph_units_concat.
  - eapply Forall_impl; [apply paragraph_units_inner |].
    intros unit (line & rest & -> & Hrest). exists line, rest.
    split; [done |]. eapply Forall_impl; [exact Hrest |].
    intros l Hl ->. done.
  - apply paragraph_units_heads.
Qed.

End PreprocessingProperties.

(** ** Documents without metadata *)

Section NullMetadata.

Context `{E : Externals}.

(** C1 (amended). For every document whose parse produced a null metadata
    map, by itself or because the parser failed, construction completes,
    [metadata_error] is [True] and every value of the ordered dictionary
    of [get_metadata_dict] is null. Resolution stops there: the word
    count and the character count are not computed, the two attributes
    are never assigned; the preprocessed lines are kept. *)
Theorem null_metadata_document (document_path : string) (split_lines : bool)
    (text : option string) :
  try_except_Exception (parse_file document_path) (Some EmptyString, None)
    = Returns (text, None) →
  ∃ doc,
    construct document_path split_lines = Returns doc
    ∧ metadata_error doc = Some true
    ∧ Forall (λ entry, entry.2 = VScalar SNone) (get_metadata_dict doc)
    ∧ file_lines doc = Some (_preprocess_file_lines text split_lines)
    ∧ num_words doc = None
    ∧ num_chars doc = None.
Proof.
  intros Hparse. unfold construct. rewrite init_run.
  assert (match parse_file document_path with
          | Returns r => r
          | Raises _ => (Some EmptyString, None)
          end = (text, None)) as ->.
  { destruct (parse_file document_path); simpl in Hparse; congruence. }
  simpl. eexists. split; [reflexivity |].
  simpl. repeat split. repeat constructor.
Qed.

(** C9. For every document path, if the external parser raises any
    exception, the exception does not leave the constructor: the document
    is the one built from the empty text and a null metadata map. Its
    line list is the single cleaned empty line, its error flag is set,
    and its path is stored. *)
Theorem parser_failure_absorbed (document_path : string)
    (split_lines : bool) (e : exn) :
  parse_file document_path = Raises e →
  construct document_path split_lines
    = Returns (set_document_path document_path
                 (set_metadata_error true
                    (set_file_lines [preprocess_text EmptyString]
                       new_object)))
  ∧ construct document_path split_lines
    = construct (E := with_parser (λ _, Returns (Some EmptyString, None)))
        document_path split_lines.
Proof.
  intros Hparse. unfold construct. rewrite !init_run, Hparse.
  simpl. rewrite !preprocess_empty. split; reflexivity.
Qed.

End NullMetadata.

(** ** The content type *)

Section ContentType.

Context `{E : Externals}.

Lemma resolve_content_type_missing (metadata : gmap string value) :
  metadata !! "Content-Type" = None →
  resolve_content_type metadata = Raises (KeyError "Content-Type").
Proof. intros H. unfold resolve_content_type, getitem. by rewrite H. Qed.

Lemma resolve_content_type_list (metadata : gmap string value) xs :
  metadata !! "Content-Type" = Some (VList xs) →
  resolve_content_type metadata
  = match xs with
    | x :: _ => Returns (VScalar (SStr (Builtins.str x)))
    | [] => Raises IndexError
    end.
Proof.
  intros H. unfold resolve_content_type, getitem. rewrite H. simpl.
  by destruct xs.
Qed.

Lemma resolve_content_type_raises (metadata : gmap string value) e :
  resolve_content_type metadata = Raises e →
  (e = KeyError "Content-Type" ∧ metadata !! "Content-Type" = None)
  ∨ e = IndexError.
Proof.
  unfold resolve_content_type, getitem.
  destruct (metadata !! "Content-Type") as [[x|xs]|]; simpl.
  - done.
  - destruct xs; simpl; [| done]. intros [= <-]. by right.
  - intros [= <-]. by left.
Qed.

(** Past the content type, no step of the method raises a [KeyError] of
    its own: every lookup is guarded. What leaves the method is a failed
    conversion or subscript, or what the detector raised. *)
Lemma guarded_steps (metadata : gmap string value) :
  raises_only
    (λ e, (∀ k, e ≠ KeyError k) ∨ (∃ text, detect text = Raises e))
    (number_of_pages metadata ;; pick_filesize metadata ;;
     pick_ocr_parsing metadata ;; pick_creation_date metadata ;;
     count_words_and_chars ;; detect_language metadata).
Proof.
  unfold number_of_pages, pick_filesize, pick_ocr_parsing,
    pick_creation_date, count_words_and_chars, detect_language.
  solve_raises_only; apply raises_only_eval; intros e He.
  all: match goal with
       | He : lookup_num_of_pages _ = Raises _ |- _ =>
           by rewrite lookup_num_of_pages_chain in He
       | He : lookup_creation_date _ = Raises _ |- _ =>
           by rewrite lookup_creation_date_chain in He
       | He : getitem _ _ = Raises _ |- _ =>
           by apply getitem_guarded in He
       | He : sum_num_of_pages ?v = Raises _ |- _ =>
           left; destruct v as [x|xs]; simpl in He; [congruence |];
           destruct (Builtins.ints xs) as [ns|e'] eqn:Hints; [done |];
           injection He as ->;
           apply ints_raises in Hints as [-> | ->]; done
       | He : first_item ?v = Raises _ |- _ =>
           left; destruct v as [x|xs]; [done |];
           apply first_item_list_raises in He as ->; done
       | He : detect _ = Raises _ |- _ => right; eauto
       | He : match ?lines with _ => _ end = Raises _ |- _ =>
           left; destruct lines; [done |]; injection He as <-; done
       end.
Qed.

(** C10. For every non-null metadata map without the key
    ["Content-Type"], the unguarded lookup of that key raises a
    [KeyError] before any attribute is assigned, and the exception leaves
    the constructor. Every other lookup is guarded: whatever the map, the
    author, the file size and the OCR flag resolve without raising, and a
    [KeyError] leaving the method is the one of ["Content-Type"] unless
    the detector raised it. *)
Theorem missing_content_type_raises (document_path : string)
    (split_lines : bool) (text : option string)
    (metadata : gmap string value) :
  parse_file document_path = Returns (text, Some metadata) →
  metadata !! "Content-Type" = None →
  construct document_path split_lines = Raises (KeyError "Content-Type")
  ∧ (∀ self, _get_document_metadata (Some metadata) self
             = (self, Raises (KeyError "Content-Type")))
  ∧ (∀ (other : gmap string value) self,
       ending (pick_author other) self = Returns tt
       ∧ ending (pick_filesize other) self = Returns tt
       ∧ ending (pick_ocr_parsing other) self = Returns tt)
  ∧ (∀ (other : gmap string value) self k,
       ending (_get_document_metadata (Some other)) self = Raises (KeyError k) →
       (k = "Content-Type" ∧ other !! "Content-Type" = None)
       ∨ (∃ text, detect text = Raises (KeyError k))).
Proof.
  intros Hparse Hmissing.
  assert (∀ self, _get_document_metadata (Some metadata) self
                  = (self, Raises (KeyError "Content-Type"))) as Hraise.
  { intros self. rewrite get_document_metadata_run.
    by rewrite resolve_content_type_missing. }
  repeat split.
  - unfold construct. rewrite init_run, Hparse. cbv zeta. cbn [fst snd].
    by rewrite Hraise.
  - exact Hraise.
  - unfold ending. by rewrite pick_author_run.
  - unfold ending, pick_filesize. run_method.
    destruct (contains other "filesize") eqn:Hc; [| done].
    unfold getitem. apply bool_decide_eq_true in Hc as [v ->]. done.
  - unfold ending, pick_ocr_parsing. run_method.
    destruct (contains other "ocr_parsing") eqn:Hc; [| done].
    unfold getitem. apply bool_decide_eq_true in Hc as [v ->]. done.
  - intros other self k. unfold ending. rewrite get_document_metadata_run.
    destruct (resolve_content_type other) as [ct|e] eqn:Hct.
    + intros Hk. apply guarded_steps in Hk as [Hk | Hk]; [| by right].
      by destruct (Hk k).
    + simpl. intros [= ->].
      apply resolve_content_type_raises in Hct as [[[= <-] Hnone] | [=]].
      by left.
Qed.

End ContentType.

(** ** Fallback chains *)

Section FallbackChains.

Context `{E : Externals}.

Lemma final_get_document_metadata (metadata : gmap string value) ct self :
  resolve_content_type metadata = Returns ct →
  final (_get_document_metadata (Some metadata)) self
  = final (number_of_pages metadata ;; pick_filesize metadata ;;
           pick_ocr_parsing metadata ;; pick_creation_date metadata ;;
           count_words_and_chars ;; detect_language metadata)
      (set_author (default (VScalar SNone)
                     (first_present author_keys metadata))
         (set_content_type ct self)).
Proof.
  intros Hct. unfold final. by rewrite get_document_metadata_run, Hct.
Qed.

(** C8 (amended). For every non-null metadata map whose ["Content-Type"]
    value is a list with a first element, the resolved content type is
    the string form [str] of that element, which is the element itself
    when it is a string. An empty list raises [IndexError] and nothing is
    assigned. *)
Theorem list_content_type (metadata : gmap string value)
    (x : scalar) (xs : list scalar) (self : FARO_Document) :
  metadata !! "Content-Type" = Some (VList (x :: xs)) →
  resolve_content_type metadata = Returns (VScalar (SStr (Builtins.str x)))
  ∧ content_type (final (_get_document_metadata (Some metadata)) self)
    = Some (VScalar (SStr (Builtins.str x)))
  ∧ (∀ s, x = SStr s →
       content_type (final (_get_document_metadata (Some metadata)) self)
       = Some (VScalar x))
  ∧ (∀ other : gmap string value,
       other !! "Content-Type" = Some (VList []) →
       _get_document_metadata (Some other) self = (self, Raises IndexError)).
Proof.
  intros Hlist.
  pose proof (resolve_content_type_list metadata (x :: xs) Hlist) as Hct.
  assert (content_type (final (_get_document_metadata (Some metadata)) self)
          = Some (VScalar (SStr (Builtins.str x)))) as Hfinal.
  { rewrite (final_get_document_metadata _ _ _ Hct).
    by rewrite steps_preserve_content_type. }
  repeat split; [done | done | |].
  - intros s ->. exact Hfinal.
  - intros other Hother. rewrite get_document_metadata_run.
    by rewrite (resolve_content_type_list other [] Hother).
Qed.

(** C7. For every non-null metadata map, the author step assigns the
    value of the first present key in the order ["Author"],
    ["meta:author"], ["creator"], ["dc:creator"],
    ["pdf:docinfo:creator"], ["producer"], ["pdf:docinfo:producer"], and
    null when none is present; that value is the author of the object
    once the content type was resolved. In particular, when ["Author"]
    is absent and ["meta:author"] maps to ["Jane Doe"], the resolved
    author is ["Jane Doe"]. *)
Theorem author_fallback_chain (metadata : gmap string value)
    (self : FARO_Document) :
  pick_author metadata self
  = (set_author (default (VScalar SNone)
                   (first_present author_keys metadata)) self,
     Returns tt)
  ∧ (∀ ct,
       resolve_content_type metadata = Returns ct →
       author (final (_get_document_metadata (Some metadata)) self)
       = Some (default (VScalar SNone)
                 (first_present author_keys metadata)))
  ∧ (metadata !! "Author" = None →
     metadata !! "meta:author" = Some (VScalar (SStr "Jane Doe")) →
     author (final (pick_author metadata) self)
     = Some (VScalar (SStr "Jane Doe"))
     ∧ ∀ ct,
         resolve_content_type metadata = Returns ct →
         author (final (_get_document_metadata (Some metadata)) self)
         = Some (VScalar (SStr "Jane Doe"))).
Proof.
  assert (∀ ct,
    resolve_content_type metadata = Returns ct →
    author (final (_get_document_metadata (Some metadata)) self)
    = Some (default (VScalar SNone)
              (first_present author_keys metadata))) as Hfinal.
  { intros ct Hct. rewrite (final_get_document_metadata _ _ _ Hct).
    by rewrite steps_preserve_author. }
  split; [apply pick_author_run |]. split; [exact Hfinal |].
  intros Hauthor Hmeta. split.
  - unfold final. rewrite pick_author_run. simpl. by rewrite Hauthor, Hmeta.
  - intros ct Hct. rewrite (Hfinal ct Hct). simpl. by rewrite Hauthor, Hmeta.
Qed.

(** C5. For every non-null metadata map, the page-count step assigns the
    value of the first present key among ["xmpTPg:NPages"],
    ["Page-Count"] and ["meta:page-count"], a list being replaced by the
    sum of its elements read as integers, and 1 when none of the keys is
    present; that value is the page count of the object once the content
    type was resolved. When an element is not an integer, the exception
    of the conversion leaves the step. *)
Theorem page_count_fallback_chain (metadata : gmap string value)
    (self : FARO_Document) :
  number_of_pages metadata self
  = match page_count_of metadata with
    | Returns v => (set_num_of_pages v self, Returns tt)
    | Raises e =>
        (set_num_of_pages
           (default (VScalar (SInt 1))
              (first_present page_count_keys metadata)) self,
         Raises e)
    end
  ∧ (∀ ct v,
       resolve_content_type metadata = Returns ct →
       page_count_of metadata = Returns v →
       num_of_pages (final (_get_document_metadata (Some metadata)) self)
       = Some v)
  ∧ (first_present page_count_keys metadata = None →
     page_count_of metadata = Returns (VScalar (SInt 1)))
  ∧ (∀ xs ns,
       first_present page_count_keys metadata = Some (VList xs) →
       Builtins.ints xs = Returns ns →
       page_count_of metadata
       = Returns (VScalar (SInt (foldr Z.add 0%Z ns)))).
Proof.
  repeat split.
  - apply number_of_pages_run.
  - intros ct v Hct Hv. rewrite (final_get_document_metadata _ _ _ Hct).
    erewrite final_bind_returns
      by (rewrite number_of_pages_run, Hv; reflexivity).
    by rewrite steps_preserve_num_of_pages.
  - intros Hnone. unfold page_count_of. by rewrite Hnone.
  - intros xs ns Hlist Hints. unfold page_count_of. by rewrite Hlist, Hints.
Qed.

End FallbackChains.

(** ** Constructed documents *)

Section Constructed.

Context `{E : Externals}.

(** A constructed document with a metadata map went through every step
    of the method. *)
Lemma construct_returns_inv (document_path : string) (split_lines : bool)
    (text : option string) (metadata : gmap string value) doc :
  parse_file document_path = Returns (text, Some metadata) →
  construct document_path split_lines = Returns doc →
  ∃ ct self,
    resolve_content_type metadata = Returns ct
    ∧ (number_of_pages metadata ;; pick_filesize metadata ;;
       pick_ocr_parsing metadata ;; pick_creation_date metadata ;;
       count_words_and_chars ;; detect_language metadata)
        (set_author (default (VScalar SNone)
                       (first_present author_keys metadata))
           (set_content_type ct
              (set_file_lines (_preprocess_file_lines text split_lines)
                 new_object)))
      = (self, Returns tt)
    ∧ doc = set_document_path document_path self.
Proof.
  intros Hparse. unfold construct. rewrite init_run, Hparse.
  cbv zeta. cbn [fst snd]. rewrite get_document_metadata_run.
  destruct (resolve_content_type metadata) as [ct|e]; [| done].
  match goal with |- context [mbind ?f ?m ?s] =>
    destruct (mbind f m s) as [self [[]|e]] eqn:Hrun end; [| done].
  intros [= <-]. by exists ct, self.
Qed.

(** The language step on an object that has its lines. *)
Lemma detect_language_lang (metadata : gmap string value) lines self self' :
  file_lines self = Some lines →
  detect_language metadata self = (self', Returns tt) →
  ∃ code,
    lang self' = Some (VScalar (SStr code))
    ∧ (detect (PyStr.join " " lines) = Returns code
       ∨ (detect (PyStr.join " " lines) = Raises LangDetectException
          ∧ code = "unk")).
Proof.
  intros Hlines. unfold detect_language. rewrite bind_run.
  assert (∃ self1,
    (if contains metadata "language"
     then v ← eval (getitem metadata "language"); assign (set_lang v)
     else mret ()) self = (self1, Returns tt)
    ∧ file_lines self1 = Some lines) as (self1 & -> & Hlines1).
  { destruct (contains metadata "language") eqn:Hc.
    - apply bool_decide_eq_true in Hc as [v Hv].
      exists (set_lang v self). run_method. unfold getitem.
      by rewrite Hv.
    - by exists self. }
  unfold try_except_LangDetectException. run_method. rewrite Hlines1.
  destruct (detect (PyStr.join " " lines)) as [code|e] eqn:Hdetect.
  - intros [= <-]. exists code. split; [done | by left].
  - destruct e; simpl; try done.
    intros [= <-]. exists "unk". split; [done | by right].
Qed.

(** The steps before the language step, taken together. *)
Lemma steps_before_language (metadata : gmap string value) self self' :
  (number_of_pages metadata ;; pick_filesize metadata ;;
   pick_ocr_parsing metadata ;; pick_creation_date metadata ;;
   count_words_and_chars ;; detect_language metadata) self
  = (self', Returns tt) →
  ∃ self1,
    file_lines self1 = file_lines self
    ∧ detect_language metadata self1 = (self', Returns tt).
Proof.
  intros Hrun.
  pose proof (steps_preserve_file_lines metadata self) as Hpre.
  unfold final in Hpre. revert Hrun Hpre. rewrite !bind_run.
  destruct (number_of_pages metadata self) as [s1 [[]|?]]; [| done].
  rewrite !bind_run.
  destruct (pick_filesize metadata s1) as [s2 [[]|?]]; [| done].
  rewrite !bind_run.
  destruct (pick_ocr_parsing metadata s2) as [s3 [[]|?]]; [| done].
  rewrite !bind_run.
  destruct (pick_creation_date metadata s3) as [s4 [[]|?]]; [| done].
  rewrite !bind_run.
  destruct (count_words_and_chars s4) as [s5 [[]|?]]; [| done].
  simpl. intros Hrun Hpre. by exists s5.
Qed.

(** C4 (amended). For every constructed document whose parse produced a
    non-null metadata map, the language attribute is set and not null: it
    is the detector's answer on the preprocessed lines joined by spaces,
    or ["unk"] when the detector raised its own exception, whatever
    ["language"] the metadata map supplied; the dictionary of
    [get_metadata_dict] shows it under ["meta:lang"]. *)
Theorem detected_language (document_path : string) (split_lines : bool)
    (text : option string) (metadata : gmap string value)
    (doc : FARO_Document) :
  parse_file document_path = Returns (text, Some metadata) →
  construct document_path split_lines = Returns doc →
  ∃ code,
    lang doc = Some (VScalar (SStr code))
    ∧ ("meta:lang", VScalar (SStr code)) ∈ get_metadata_dict doc
    ∧ (detect (PyStr.join " " (_preprocess_file_lines text split_lines))
         = Returns code
       ∨ (detect (PyStr.join " " (_preprocess_file_lines text split_lines))
            = Raises LangDetectException
          ∧ code = "unk")).
Proof.
  intros Hparse Hdoc.
  destruct (construct_returns_inv _ _ _ _ _ Hparse Hdoc)
    as (ct & self & Hct & Hrun & ->).
  apply steps_before_language in Hrun as (self1 & Hlines & Hrun).
  simpl in Hlines.
  destruct (detect_language_lang _ _ _ _ Hlines Hrun) as (code & Hlang & Hcode).
  exists code. repeat split; [done | | done].
  unfold get_metadata_dict. simpl. rewrite Hlang. simpl.
  do 3 apply list_elem_of_further. apply list_elem_of_here.
Qed.

(** C6 (amended). For every constructed document whose parse produced a
    non-null metadata map, [num_of_pages] is a non-negative integer
    whenever no page-count key is present (it is 1), the first present
    key holds a non-negative integer (it is that integer), or it holds a
    list whose elements read as non-negative integers (it is their
    sum). *)
Theorem page_count_of_constructed (document_path : string)
    (split_lines : bool) (text : option string)
    (metadata : gmap string value) (doc : FARO_Document) :
  parse_file document_path = Returns (text, Some metadata) →
  construct document_path split_lines = Returns doc →
  nonneg_page_source (first_present page_count_keys metadata) = true →
  ∃ n, num_of_pages doc = Some (VScalar (SInt n))
       ∧ (0 ≤ n)%Z
       ∧ page_count_of metadata = Returns (VScalar (SInt n)).
Proof.
  intros Hparse Hdoc Hsource.
  destruct (construct_returns_inv _ _ _ _ _ Hparse Hdoc)
    as (ct & self & Hct & Hrun & ->).
  apply bind_returns_inv in Hrun as ([] & self1 & Hpages & Hrun).
  pose proof (steps_preserve_num_of_pages metadata self1) as Hkeep.
  unfold final in Hkeep. rewrite Hrun in Hkeep.
  change (num_of_pages (set_document_path document_path self)
          = num_of_pages self1) in Hkeep.
  rewrite Hkeep. clear Hkeep Hrun.
  rewrite number_of_pages_run in Hpages. unfold page_count_of in *.
  destruct (first_present page_count_keys metadata) as [[x|xs]|];
    simpl in Hsource.
  - destruct x as [| |n|]; try done.
    injection Hpages as <-. exists n.
    split; [done |]. split; [| done]. by apply Z.leb_le.
  - destruct (Builtins.ints xs) as [ns|e]; [| done].
    injection Hpages as <-. exists (foldr Z.add 0%Z ns).
    split; [done |]. split; [| done].
    rewrite <- sum_foldr. apply sum_nonneg.
    apply Forall_forall. intros n Hn. apply Z.leb_le.
    by apply (proj1 (forallb_forall _ _) Hsource), list_elem_of_In.
  - injection Hpages as <-. exists 1%Z. split; [done |]. split; [lia | done].
Qed.

End Constructed.

(** ** The model on sample inputs *)

Example strip_split_hello_world :
  PyStr.split PyStr.LF (PyStr.strip hello_world) = ["Hello."; ""; "World."].
Proof. reflexivity. Qed.

Example split_empty_text : PyStr.split PyStr.LF EmptyString = [EmptyString].
Proof. reflexivity. Qed.

Example strip_both_ends : PyStr.strip "  a b  " = "a b".
Proof. reflexivity. Qed.

Example count_words_sample : count_words "it's a-b c_d" = 5.
Proof. reflexivity. Qed.

Example int_of_str_samples :
  Builtins.int_of_str " +1_000 " = Some 1000%Z
  ∧ Builtins.int_of_str "-3" = Some (-3)%Z
  ∧ Builtins.int_of_str "007" = Some 7%Z
  ∧ Builtins.int_of_str "1__0" = None
  ∧ Builtins.int_of_str "12 pages" = None
  ∧ Builtins.int_of_str EmptyString = None.
Proof. repeat split. Qed.

Example ints_stop_at_first_failure :
  Builtins.ints [SStr "3"; SNone; SStr "x"] = Raises TypeError
  ∧ Builtins.ints [SStr "3"; SStr "x"; SNone] = Raises ValueError
  ∧ Builtins.ints [SStr "3"; SInt 4; SBool true] = Returns [3; 4; 1]%Z.
Proof. repeat split. Qed.

Example str_samples :
  Builtins.str (SInt (-12)) = "-12"
  ∧ Builtins.str (SBool true) = "True"
  ∧ Builtins.str SNone = "None"
  ∧ Builtins.str (SStr "text/html") = "text/html".
Proof. repeat split. Qed.

Example construct_pdf_document :
  construct (E := pdf_externals) "a.pdf" false = Returns pdf_document.
Proof. reflexivity. Qed.

Example construct_html_document :
  construct (E := html_externals) "a.html" false = Returns html_document.
Proof. reflexivity. Qed.

Example metadata_dict_of_pdf_document :
  get_metadata_dict pdf_document
  = [ ("meta:content-type", VScalar (SStr "application/pdf"));
      ("meta:author", VScalar (SStr "Jane Doe"));
      ("meta:pages", VScalar (SStr "12"));
      ("meta:lang", VScalar (SStr "en"));
      ("meta:date", VScalar SNone);
      ("meta:filesize", VScalar SNone);
      ("meta:ocr", VScalar (SBool false)) ].
Proof. reflexivity. Qed.

Example undetected_language_is_unk :
  ∃ doc,
    construct (E := undetected_externals (Some hello_world) (Some pdf_metadata))
      "a.pdf" true
    = Returns doc
    ∧ lang doc = Some (VScalar (SStr "unk"))
    ∧ file_lines doc = Some ["Hello."; ""; "World."].
Proof. eexists. split; [vm_compute; reflexivity | split; reflexivity]. Qed.

Example other_detector_failure_leaves :
  construct
    (E := {| parse_file := λ _, Returns (Some hello_world, Some pdf_metadata);
             preprocess_text := λ line, line;
             detect := λ _, Raises (OtherException "RuntimeError") |})
    "a.pdf" false
  = Raises (OtherException "RuntimeError").
Proof. reflexivity. Qed.

(** ** The properties on sample documents *)

Lemma null_metadata_document_sample :
  try_except_Exception
    (parse_file (Externals := fixed_externals (Some hello_world) None) "a.pdf")
    (Some EmptyString, None)
  = Returns (Some hello_world, None)
  ∧ ∃ doc,
      construct (E := fixed_externals (Some hello_world) None) "a.pdf" false
      = Returns doc
      ∧ metadata_error doc = Some true
      ∧ Forall (λ entry, entry.2 = VScalar SNone) (get_metadata_dict doc)
      ∧ file_lines doc
        = Some (_preprocess_file_lines
                  (E := fixed_externals (Some hello_world) None)
                  (Some hello_world) false)
      ∧ num_words doc = None
      ∧ num_chars doc = None.
Proof.
  split; [reflexivity |].
  apply (null_metadata_document
           (E := fixed_externals (Some hello_world) None)
           "a.pdf" false (Some hello_world)).
  reflexivity.
Defined.

(** With a text and no metadata map the counts are not computed. *)
Lemma null_metadata_counts_missing :
  ¬ ∃ doc words chars,
      construct (E := fixed_externals (Some hello_world) None) "a.pdf" false
      = Returns doc
      ∧ metadata_error doc = Some true
      ∧ num_words doc = Some words
      ∧ num_chars doc = Some chars.
Proof.
  intros (doc & words & chars & Hdoc & _ & Hwords & _).
  vm_compute in Hdoc. injection Hdoc as <-. discriminate Hwords.
Qed.

(** With a cleaner that changes nothing the second group starts with a
    space. *)
Lemma hello_world_second_group :
  _preprocess_file_lines (E := fixed_externals None None)
    (Some hello_world) false
  = ["Hello."; " World."]
  ∧ _preprocess_file_lines (E := fixed_externals None None)
      (Some hello_world) false
    ≠ [ preprocess_text (Externals := fixed_externals None None) "Hello.";
        preprocess_text (Externals := fixed_externals None None) "World." ].
Proof. split; [reflexivity | discriminate]. Qed.

(** Under neither value of the flag are all the cleaned lines concatenated
    with a space: the set flag keeps the four lines apart, the other one
    makes two paragraphs. *)
Lemma lines_never_all_concatenated :
  let E := fixed_externals None None in
  let lines := PyStr.split PyStr.LF (PyStr.strip two_lines_and_one) in
  _preprocess_file_lines (Some two_lines_and_one) true = ["a"; "b"; ""; "c"]
  ∧ _preprocess_file_lines (Some two_lines_and_one) false = ["a b"; " c"]
  ∧ ∀ join_lines,
      _preprocess_file_lines (Some two_lines_and_one) join_lines
      ≠ [PyStr.join " " (preprocess_text <$> lines)].
Proof.
  split; [reflexivity |]. split; [reflexivity |].
  intros []; discriminate.
Qed.

Lemma detected_language_sample :
  parse_file (Externals := pdf_externals) "a.pdf"
  = Returns (Some hello_world, Some pdf_metadata)
  ∧ construct (E := pdf_externals) "a.pdf" false = Returns pdf_document
  ∧ ∃ code,
      lang pdf_document = Some (VScalar (SStr code))
      ∧ ("meta:lang", VScalar (SStr code)) ∈ get_metadata_dict pdf_document
      ∧ (detect (Externals := pdf_externals)
           (PyStr.join " "
              (_preprocess_file_lines (E := pdf_externals)
                 (Some hello_world) false))
         = Returns code
         ∨ (detect (Externals := pdf_externals)
              (PyStr.join " "
                 (_preprocess_file_lines (E := pdf_externals)
                    (Some hello_world) false))
            = Raises LangDetectException
            ∧ code = "unk")).
Proof.
  split; [reflexivity |]. split; [reflexivity |].
  apply (detected_language (E := pdf_externals)
           "a.pdf" false (Some hello_world) pdf_metadata pdf_document);
    reflexivity.
Defined.

(** Without a metadata map the language is never assigned and the
    dictionary shows a null. *)
Lemma null_metadata_language_unset :
  ∃ doc,
    construct (E := fixed_externals (Some hello_world) None) "a.pdf" false
    = Returns doc
    ∧ lang doc = None
    ∧ ("meta:lang", VScalar SNone) ∈ get_metadata_dict doc.
Proof.
  eexists. split; [reflexivity |]. split; [reflexivity |].
  do 3 apply list_elem_of_further. apply list_elem_of_here.
Qed.

Lemma page_count_fallback_chain_sample :
  resolve_content_type html_metadata = Returns (VScalar (SStr "text/html"))
  ∧ page_count_of html_metadata = Returns (VScalar (SInt 7))
  ∧ num_of_pages
      (final (_get_document_metadata (E := html_externals)
                (Some html_metadata)) new_object)
    = Some (VScalar (SInt 7)).
Proof.
  split; [reflexivity |]. split; [reflexivity |].
  apply (proj1 (proj2 (page_count_fallback_chain (E := html_externals)
                         html_metadata new_object))
           (VScalar (SStr "text/html")) (VScalar (SInt 7)));
    reflexivity.
Defined.

Lemma page_count_of_constructed_sample :
  parse_file (Externals := html_externals) "a.html"
  = Returns (Some hello_world, Some html_metadata)
  ∧ construct (E := html_externals) "a.html" false = Returns html_document
  ∧ nonneg_page_source (first_present page_count_keys html_metadata) = true
  ∧ ∃ n, num_of_pages html_document = Some (VScalar (SInt n))
         ∧ (0 ≤ n)%Z
         ∧ page_count_of html_metadata = Returns (VScalar (SInt n)).
Proof.
  split; [reflexivity |]. split; [reflexivity |]. split; [reflexivity |].
  exact (page_count_of_constructed (E := html_externals)
           "a.html" false (Some hello_world) html_metadata html_document
           eq_refl eq_refl eq_refl).
Defined.

(** Three constructed documents whose page count is no non-negative
    integer: without a metadata map it is never assigned, a list of
    negative elements sums to a negative integer, and a page count that the
    map holds as a string stays a string. *)
Lemma page_count_not_nonneg_int :
  (∃ doc,
     construct (E := fixed_externals (Some hello_world) None) "a.pdf" false
     = Returns doc
     ∧ num_of_pages doc = None)
  ∧ (∃ doc,
       construct
         (E := fixed_externals (Some hello_world) (Some negative_metadata))
         "a.pdf" false
       = Returns doc
       ∧ num_of_pages doc = Some (VScalar (SInt (-3)))
       ∧ is_nonneg_int (VScalar (SInt (-3))) = false)
  ∧ (construct (E := pdf_externals) "a.pdf" false = Returns pdf_document
     ∧ num_of_pages pdf_document = Some (VScalar (SStr "12"))
     ∧ is_nonneg_int (VScalar (SStr "12")) = false).
Proof.
  split; [eexists; split; reflexivity |].
  split; [eexists; split; [vm_compute; reflexivity | split; reflexivity] |].
  repeat split.
Qed.

Lemma author_fallback_chain_sample :
  pdf_metadata !! "Author" = None
  ∧ pdf_metadata !! "meta:author" = Some (VScalar (SStr "Jane Doe"))
  ∧ resolve_content_type pdf_metadata
    = Returns (VScalar (SStr "application/pdf"))
  ∧ author (final (_get_document_metadata (E := pdf_externals)
                     (Some pdf_metadata)) new_object)
    = Some (VScalar (SStr "Jane Doe")).
Proof.
  split; [reflexivity |]. split; [reflexivity |]. split; [reflexivity |].
  apply (proj2 (proj2 (proj2 (author_fallback_chain (E := pdf_externals)
                                pdf_metadata new_object))
                  eq_refl eq_refl)
           (VScalar (SStr "application/pdf"))).
  reflexivity.
Defined.

Lemma list_content_type_sample :
  html_metadata !! "Content-Type"
  = Some (VList [SStr "text/html"; SStr "text/plain"])
  ∧ content_type
      (final (_get_document_metadata (E := html_externals)
                (Some html_metadata)) new_object)
    = Some (VScalar (SStr "text/html")).
Proof.
  split; [reflexivity |].
  exact (proj1 (proj2 (list_content_type (E := html_externals)
                         html_metadata (SStr "text/html") [SStr "text/plain"]
                         new_object eq_refl))).
Defined.

(** A first element that is not a string is not the resolved content
    type: its string form is. *)
Lemma content_type_of_number :
  ∃ doc,
    construct (E := fixed_externals (Some hello_world) (Some numbered_metadata))
      "a.pdf" false
    = Returns doc
    ∧ numbered_metadata !! "Content-Type" = Some (VList [SInt 5])
    ∧ content_type doc = Some (VScalar (SStr "5"))
    ∧ content_type doc ≠ Some (VScalar (SInt 5)).
Proof.
  eexists. split; [vm_compute; reflexivity |].
  split; [reflexivity |]. split; [reflexivity | discriminate].
Qed.

Lemma parser_failure_absorbed_sample :
  parse_file (Externals := failing_externals ValueError) "a.pdf"
  = Raises ValueError
  ∧ construct (E := failing_externals ValueError) "a.pdf" true
    = Returns (mkDoc (Some [EmptyString]) (Some true) None None None None
                 None None None None None (Some "a.pdf")).
Proof.
  split; [reflexivity |].
  exact (proj1 (parser_failure_absorbed (E := failing_externals ValueError)
                  "a.pdf" true ValueError eq_refl)).
Defined.

Lemma missing_content_type_raises_sample :
  parse_file
    (Externals := fixed_externals (Some hello_world) (Some author_metadata))
    "a.pdf"
  = Returns (Some hello_world, Some author_metadata)
  ∧ author_metadata !! "Content-Type" = None
  ∧ construct
      (E := fixed_externals (Some hello_world) (Some author_metadata))
      "a.pdf" false
    = Raises (KeyError "Content-Type").
Proof.
  split; [reflexivity |]. split; [reflexivity |].
  exact (proj1 (missing_content_type_raises
                  (E := fixed_externals (Some hello_world)
                          (Some author_metadata))
                  "a.pdf" false (Some hello_world) author_metadata
                  eq_refl eq_refl)).
Defined.

(** ** The remaining steps of the method *)

Section RemainingSteps.

Context `{E : Externals}.

Lemma pick_filesize_run (metadata : gmap string value) self :
  pick_filesize metadata self
  = (set_filesize (default (VScalar SNone) (metadata !! "filesize")) self,
     Returns tt).
Proof.
  unfold pick_filesize. run_method. unfold getitem.
  destruct (metadata !! "filesize") as [v|] eqn:Hv.
  - by rewrite (contains_Some _ _ _ Hv).
  - by rewrite (contains_None _ _ Hv).
Qed.

Lemma pick_ocr_parsing_run (metadata : gmap string value) self :
  pick_ocr_parsing metadata self
  = (set_ocr_parsing
       (default (VScalar (SBool false)) (metadata !! "ocr_parsing")) self,
     Returns tt).
Proof.
  unfold pick_ocr_parsing. run_method. unfold getitem.
  destruct (metadata !! "ocr_parsing") as [v|] eqn:Hv.
  - by rewrite (contains_Some _ _ _ Hv).
  - by rewrite (contains_None _ _ Hv).
Qed.

Lemma pick_creation_date_run (metadata : gmap string value) self :
  pick_creation_date metadata self
  = match creation_date_of metadata with
    | Returns v => (set_creation_date v self, Returns tt)
    | Raises e =>
        (set_creation_date
           (default (VScalar SNone)
              (first_present creation_date_keys metadata)) self,
         Raises e)
    end.
Proof.
  unfold pick_creation_date, creation_date_of.
  rewrite lookup_creation_date_chain.
  destruct (first_present creation_date_keys metadata) as [[x|[|x xs]]|];
    reflexivity.
Qed.

(** The loop of lines 133-135 adds the counts of the lines to the two
    counters. *)
Lemma count_loop (lines : list string) self words chars :
  num_words self = Some words →
  num_chars self = Some chars →
  for_each lines (λ line,
    n ← read num_words;
    assign (set_num_words (default 0 n + count_words line)) ;;
    n ← read num_chars;
    assign (set_num_chars (default 0 n + String.length line))) self
  = (set_num_chars (chars + total_chars lines)
       (set_num_words (words + total_words lines) self),
     Returns tt).
Proof.
  revert self words chars.
  induction lines as [|line lines IH]; intros self words chars Hw Hc.
  - simpl. unfold total_chars, total_words. simpl. rewrite !Nat.add_0_r.
    destruct self; simpl in *. by rewrite Hw, Hc.
  - cbn [for_each]. rewrite bind_run. run_method. rewrite Hw, Hc. simpl.
    erewrite IH by reflexivity.
    unfold total_chars, total_words. simpl.
    by rewrite !Nat.add_assoc.
Qed.

Lemma count_words_and_chars_run (lines : list string) self :
  file_lines self = Some lines →
  count_words_and_chars self
  = (set_num_chars (total_chars lines)
       (set_num_words (total_words lines) self),
     Returns tt).
Proof.
  intros Hlines. unfold count_words_and_chars. run_method. rewrite Hlines.
  by erewrite count_loop by reflexivity.
Qed.

Lemma detect_language_run (metadata : gmap string value) lines self :
  file_lines self = Some lines →
  detect_language metadata self
  = match language_of lines with
    | Returns code => (set_lang (VScalar (SStr code)) self, Returns tt)
    | Raises e =>
        (match metadata !! "language" with
         | Some v => set_lang v self
         | None => self
         end,
         Raises e)
    end.
Proof.
  intros Hlines. unfold detect_language, language_of. rewrite bind_run.
  assert ((if contains metadata "language"
           then v ← eval (getitem metadata "language"); assign (set_lang v)
           else mret ()) self
          = (match metadata !! "language" with
             | Some v => set_lang v self
             | None => self
             end, Returns tt)) as ->.
  { unfold getitem. destruct (metadata !! "language") as [v|] eqn:Hv.
    - by rewrite (contains_Some _ _ _ Hv).
    - by rewrite (contains_None _ _ Hv). }
  unfold try_except_LangDetectException. run_method.
  assert (file_lines (match metadata !! "language" with
                      | Some v => set_lang v self
                      | None => self
                      end) = Some lines) as ->.
  { by destruct (metadata !! "language"). }
  destruct (detect (PyStr.join " " lines)) as [code|e].
  - by destruct (metadata !! "language").
  - destruct (isinstance_LangDetectException e); [| done].
    by destruct (metadata !! "language").
Qed.

(** The steps after the author, on an object that has its lines: which
    way they end, and the object they leave when all of them return. *)
Lemma steps_ending (metadata : gmap string value) lines self :
  file_lines self = Some lines →
  ending (number_of_pages metadata ;; pick_filesize metadata ;;
          pick_ocr_parsing metadata ;; pick_creation_date metadata ;;
          count_words_and_chars ;; detect_language metadata) self
  = and_then (void (page_count_of metadata))
      (and_then (void (creation_date_of metadata))
         (void (language_of lines))).
Proof.
  intros Hlines. unfold ending.
  rewrite bind_run, number_of_pages_run.
  destruct (page_count_of metadata) as [pages|e]; [| done].
  rewrite bind_run, pick_filesize_run, bind_run, pick_ocr_parsing_run.
  rewrite bind_run, pick_creation_date_run.
  destruct (creation_date_of metadata) as [date|e]; [| done].
  rewrite bind_run. erewrite count_words_and_chars_run by exact Hlines.
  erewrite detect_language_run by exact Hlines.
  by destruct (language_of lines).
Qed.

Lemma steps_final (metadata : gmap string value) lines self pages date code :
  file_lines self = Some lines →
  page_count_of metadata = Returns pages →
  creation_date_of metadata = Returns date →
  language_of lines = Returns code →
  final (number_of_pages metadata ;; pick_filesize metadata ;;
         pick_ocr_parsing metadata ;; pick_creation_date metadata ;;
         count_words_and_chars ;; detect_language metadata) self
  = set_lang (VScalar (SStr code))
      (set_num_chars (total_chars lines)
         (set_num_words (total_words lines)
            (set_creation_date date
               (set_ocr_parsing
                  (default (VScalar (SBool false))
                     (metadata !! "ocr_parsing"))
                  (set_filesize
                     (default (VScalar SNone) (metadata !! "filesize"))
                     (set_num_of_pages pages self)))))).
Proof.
  intros Hlines Hpages Hdate Hcode. unfold final.
  rewrite bind_run, number_of_pages_run, Hpages.
  rewrite bind_run, pick_filesize_run, bind_run, pick_ocr_parsing_run.
  rewrite bind_run, pick_creation_date_run, Hdate.
  rewrite bind_run. erewrite count_words_and_chars_run by exact Hlines.
  erewrite detect_language_run by exact Hlines.
  by rewrite Hcode.
Qed.

End RemainingSteps.

(** ** Splitting and counting *)

Lemma append_nil_l (s : string) : EmptyString +:+ s = s.
Proof. done. Qed.

Lemma append_cons (c : ascii) (a b : string) :
  String c a +:+ b = String c (a +:+ b).
Proof. done. Qed.

Lemma split_cons (sep : ascii) (s : string) :
  ∃ line lines, PyStr.split sep s = line :: lines.
Proof.
  destruct s as [|c s]; simpl; [by eauto |].
  destruct (Ascii.eqb c sep); [by eauto |].
  destruct (PyStr.split sep s); eauto.
Qed.

Lemma concat_cons_char (sep : string) (c : ascii) (w : string) ws :
  String.concat sep (String c w :: ws) = String c (String.concat sep (w :: ws)).
Proof. by destruct ws. Qed.

Lemma split_join (sep : ascii) (s : string) :
  String.concat (String sep EmptyString) (PyStr.split sep s) = s.
Proof.
  induction s as [|c s IH]; [done |]. simpl.
  destruct (Ascii.eqb c sep) eqn:Hc.
  - apply Ascii.eqb_eq in Hc as ->.
    destruct (split_cons sep s) as (line & lines & Hs).
    rewrite Hs in *. simpl.
    change (String sep (String.concat (String sep EmptyString) (line :: lines))
            = String sep s).
    by rewrite IH.
  - destruct (split_cons sep s) as (line & lines & Hs).
    rewrite Hs in *. by rewrite concat_cons_char, IH.
Qed.

Lemma split_no_sep (sep : ascii) (s : string) :
  Forall (λ line, PyStr.mem sep line = false) (PyStr.split sep s).
Proof.
  induction s as [|c s IH]; simpl; [by repeat constructor |].
  destruct (Ascii.eqb c sep) eqn:Hc.
  - by constructor.
  - destruct (PyStr.split sep s) as [|w ws]; [by repeat constructor; simpl;
      rewrite Ascii.eqb_sym, Hc |].
    inversion IH as [|? ? Hw Hws]; subst. constructor; [| done].
    simpl. by rewrite Ascii.eqb_sym, Hc.
Qed.

Lemma sub_nonword_append (a b : string) :
  PyStr.sub_nonword (a +:+ b) = PyStr.sub_nonword a +:+ PyStr.sub_nonword b.
Proof.
  induction a as [|c a IH]; [done |].
  rewrite append_cons. simpl. by rewrite IH.
Qed.

Lemma sub_nonword_length (s : string) :
  String.length (PyStr.sub_nonword s) = String.length s.
Proof. induction s as [|c s IH]; simpl; [done | by rewrite IH]. Qed.

Lemma split_ws_cons_word (c : ascii) (s : string) :
  PyStr.isspace c = false →
  ∃ w ws, PyStr.split_ws (String c s) = w :: ws.
Proof.
  intros Hc. simpl. rewrite Hc.
  destruct s as [|c' s']; [by eauto |].
  destruct (PyStr.isspace c'); [by eauto |].
  destruct (PyStr.split_ws (String c' s')); eauto.
Qed.

(** A space between two strings keeps their words apart. *)
Lemma split_ws_space (a b : string) :
  PyStr.split_ws (a +:+ " " +:+ b) = PyStr.split_ws a ++ PyStr.split_ws b.
Proof.
  induction a as [|c a IH]; [done |].
  rewrite append_cons.
  destruct (PyStr.isspace c) eqn:Hc.
  - simpl. by rewrite Hc.
  - destruct a as [|c' a'].
    + simpl. by rewrite Hc.
    + rewrite append_cons in *.
      change (PyStr.split_ws (String c (String c' (a' +:+ " " +:+ b))))
        with (if PyStr.isspace c
              then PyStr.split_ws (String c' (a' +:+ " " +:+ b))
              else if PyStr.isspace c'
                   then String c EmptyString
                        :: PyStr.split_ws (String c' (a' +:+ " " +:+ b))
                   else match PyStr.split_ws (String c' (a' +:+ " " +:+ b)) with
                        | w :: ws => String c w :: ws
                        | [] => [String c EmptyString]
                        end).
      change (PyStr.split_ws (String c (String c' a')))
        with (if PyStr.isspace c
              then PyStr.split_ws (String c' a')
              else if PyStr.isspace c'
                   then String c EmptyString :: PyStr.split_ws (String c' a')
                   else match PyStr.split_ws (String c' a') with
                        | w :: ws => String c w :: ws
                        | [] => [String c EmptyString]
                        end).
      rewrite Hc, IH.
      destruct (PyStr.isspace c') eqn:Hc'; [done |].
      by destruct (split_ws_cons_word c' a' Hc') as (w & ws & ->).
Qed.

Lemma split_ws_length (s : string) :
  length (PyStr.split_ws s) ≤ String.length s.
Proof.
  induction s as [|c s IH]; [done |].
  change (PyStr.split_ws (String c s))
    with (if PyStr.isspace c then PyStr.split_ws s
          else match s with
               | EmptyString => [String c EmptyString]
               | String c' _ =>
                   if PyStr.isspace c'
                   then String c EmptyString :: PyStr.split_ws s
                   else match PyStr.split_ws s with
                        | w :: ws => String c w :: ws
                        | [] => [String c EmptyString]
                        end
               end).
  change (String.length (String c s)) with (S (String.length s)).
  destruct (PyStr.isspace c); [lia |].
  destruct s as [|c' s']; [cbn [length]; lia |].
  destruct (PyStr.isspace c'); [cbn [length]; lia |].
  destruct (PyStr.split_ws (String c' s')); cbn [length] in *; lia.
Qed.

Section Counting.

Context `{E : Externals}.

Lemma count_words_format2 (a b : string) :
  count_words (PyStr.format2 a b) = count_words a + count_words b.
Proof.
  unfold count_words, PyStr.format2.
  rewrite !sub_nonword_append.
  change (PyStr.sub_nonword " ") with " ".
  by rewrite split_ws_space, length_app.
Qed.

Lemma count_words_bound (line : string) :
  count_words line ≤ String.length line.
Proof.
  unfold count_words. rewrite <- (sub_nonword_length line).
  apply split_ws_length.
Qed.

Lemma total_words_bound (lines : list string) :
  total_words lines ≤ total_chars lines.
Proof.
  unfold total_words, total_chars.
  induction lines as [|line lines IH]; simpl; [done |].
  pose proof (count_words_bound line). lia.
Qed.

Lemma count_words_render (unit : list string) :
  count_words (render unit) = total_words (preprocess_text <$> unit).
Proof.
  unfold total_words.
  induction unit as [|line unit IH]; [done |].
  destruct unit as [|next unit].
  - simpl. unfold render. simpl. lia.
  - rewrite render_cons, count_words_format2, IH. done.
Qed.

Lemma length_render (line : string) (unit : list string) :
  String.length (render (line :: unit)) + 1
  = sum_list_with (λ l, String.length l + 1) (preprocess_text <$> line :: unit).
Proof.
  revert line. induction unit as [|next unit IH]; intros line.
  - simpl. unfold render. simpl. lia.
  - rewrite render_cons. unfold PyStr.format2. rewrite !length_append.
    change (String.length " ") with 1.
    change (preprocess_text <$> line :: next :: unit)
      with (preprocess_text line :: (preprocess_text <$> next :: unit)).
    cbn [sum_list_with]. rewrite <- IH. lia.
Qed.

Lemma sum_list_with_succ (lines : list string) :
  sum_list_with (λ l, String.length l + 1) lines
  = total_chars lines + length lines.
Proof.
  unfold total_chars. induction lines as [|l lines IH]; simpl; [done | lia].
Qed.

Lemma total_words_concat (units : list (list string)) :
  total_words (preprocess_text <$> concat units)
  = total_words (render <$> units).
Proof.
  unfold total_words.
  induction units as [|unit units IH]; [done |].
  cbn [concat]. rewrite fmap_app, sum_list_with_app, IH.
  cbn [fmap list_fmap sum_list_with].
  f_equal. symmetry. apply count_words_render.
Qed.

Lemma total_chars_concat (units : list (list string)) :
  Forall (λ unit, unit ≠ []) units →
  sum_list_with (λ l, String.length l + 1) (preprocess_text <$> concat units)
  = sum_list_with (λ l, String.length l + 1) (render <$> units).
Proof.
  induction 1 as [|unit units Hunit _ IH]; [done |].
  cbn [concat]. rewrite fmap_app, sum_list_with_app, IH.
  cbn [fmap list_fmap sum_list_with].
  f_equal. destruct unit as [|line unit]; [done |].
  symmetry. apply length_render.
Qed.

End Counting.

Lemma paragraph_units_nonempty (lines : list string) :
  Forall (λ unit, unit ≠ []) (paragraph_units lines).
Proof.
  eapply Forall_impl; [apply paragraph_units_inner |].
  by intros unit (line & rest & -> & _).
Qed.

Lemma paragraph_units_length (line : string) (rest : list string) :
  length (paragraph_units (line :: rest))
  = 1 + length (filter (λ l, is_blank l = true) rest).
Proof.
  revert line. induction rest as [|next rest IH]; intros line; [done |].
  specialize (IH next).
  destruct (paragraph_units_cons next rest) as (unit & units & Hu).
  change (paragraph_units (line :: next :: rest))
    with (match paragraph_units (next :: rest) with
          | (next' :: unit') :: units' =>
              if is_blank next' then [line] :: (next' :: unit') :: units'
              else (line :: next' :: unit') :: units'
          | _ => [[line]]
          end).
  rewrite Hu in *. rewrite filter_cons.
  destruct (is_blank next) eqn:Hb.
  - rewrite decide_True by done. simpl in *. lia.
  - rewrite decide_False by done. simpl in *. lia.
Qed.

(** ** Stripping *)

Lemma append_snoc_not_nil (t : string) (c : ascii) :
  t +:+ String c EmptyString ≠ EmptyString.
Proof. by destruct t. Qed.

Lemma string_snoc (c : ascii) (s : string) :
  ∃ t d, String c s = t +:+ String d EmptyString.
Proof.
  revert c. induction s as [|c' s IH]; intros c.
  - by exists EmptyString, c.
  - destruct (IH c') as (t & d & Ht). exists (String c t), d.
    rewrite append_cons. by f_equal.
Qed.

Lemma lstrip_by_head (p : ascii → bool) (s : string) c s' :
  PyStr.lstrip_by p s = String c s' → p c = false.
Proof.
  induction s as [|d s IH]; simpl; [done |].
  destruct (p d) eqn:Hd; [done |]. by intros [= <- _].
Qed.

Lemma rstrip_by_cons (p : ascii → bool) (c : ascii) (s : string) :
  p c = false → PyStr.rstrip_by p (String c s) = String c (PyStr.rstrip_by p s).
Proof.
  intros Hc. simpl. rewrite Hc. by destruct (PyStr.rstrip_by p s).
Qed.

Lemma rstrip_by_last (p : ascii → bool) (s t : string) (c : ascii) :
  PyStr.rstrip_by p s = t +:+ String c EmptyString → p c = false.
Proof.
  revert t. induction s as [|d s IH]; intros t.
  - simpl. intros H. symmetry in H. by apply append_snoc_not_nil in H.
  - simpl. destruct (PyStr.rstrip_by p s) as [|e r] eqn:Hr.
    + destruct (p d) eqn:Hd.
      * intros H. symmetry in H. by apply append_snoc_not_nil in H.
      * destruct t as [|d' t'].
        -- by intros [= <-].
        -- rewrite append_cons. intros [= _ H]. symmetry in H.
           by apply append_snoc_not_nil in H.
    + destruct t as [|d' t'].
      * rewrite append_nil_l. by intros [=].
      * rewrite append_cons. intros [= _ H]. by apply (IH t').
Qed.

(** A stripped text is empty, or it starts and ends with a character that
    is no whitespace. *)
Lemma strip_ends (s : string) :
  PyStr.strip s = EmptyString
  ∨ ∃ c rest t d,
      PyStr.strip s = String c rest
      ∧ PyStr.strip s = t +:+ String d EmptyString
      ∧ PyStr.isspace c = false
      ∧ PyStr.isspace d = false.
Proof.
  unfold PyStr.strip.
  destruct (PyStr.lstrip_by PyStr.isspace s) as [|c s'] eqn:Hl; [by left |].
  right. pose proof (lstrip_by_head _ _ _ _ Hl) as Hc.
  rewrite (rstrip_by_cons _ _ _ Hc).
  destruct (string_snoc c (PyStr.rstrip_by PyStr.isspace s')) as (t & d & Ht).
  exists c, (PyStr.rstrip_by PyStr.isspace s'), t, d.
  repeat split; [done | done |].
  apply (rstrip_by_last PyStr.isspace (String c s') t d).
  by rewrite (rstrip_by_cons _ _ _ Hc).
Qed.

Lemma split_head (sep c : ascii) (s : string) :
  Ascii.eqb c sep = false →
  ∃ w ws, PyStr.split sep (String c s) = String c w :: ws.
Proof.
  intros Hc. simpl. rewrite Hc. destruct (PyStr.split sep s); eauto.
Qed.

Lemma split_last (sep c : ascii) (t : string) :
  Ascii.eqb c sep = false →
  ∃ ws w, PyStr.split sep (t +:+ String c EmptyString)
          = ws ++ [w +:+ String c EmptyString].
Proof.
  intros Hc. induction t as [|d t (ws & w & IH)].
  - exists [], EmptyString. simpl. by rewrite Hc.
  - rewrite append_cons. simpl. rewrite IH.
    destruct (Ascii.eqb d sep).
    + by exists (EmptyString :: ws), w.
    + destruct ws as [|x ws]; simpl.
      * by exists [], (String d w).
      * by exists (String d x :: ws), w.
Qed.

Lemma isspace_not_LF (c : ascii) :
  PyStr.isspace c = false → Ascii.eqb c PyStr.LF = false.
Proof.
  intros Hc. destruct (Ascii.eqb c PyStr.LF) eqn:Heq; [| done].
  apply Ascii.eqb_eq in Heq as ->. done.
Qed.

(** ** Keys that the method does not name *)

Lemma contains_insert_ne (d : gmap string value) k k' v :
  k ≠ k' → contains (<[k:=v]> d) k' = contains d k'.
Proof. intros Hk. unfold contains. by rewrite lookup_insert_ne. Qed.

Lemma getitem_insert_ne (d : gmap string value) k k' v :
  k ≠ k' → getitem (<[k:=v]> d) k' = getitem d k'.
Proof. intros Hk. unfold getitem. by rewrite lookup_insert_ne. Qed.

Lemma first_present_insert_ne (keys : list string) (d : gmap string value) k v :
  k ∉ keys → first_present keys (<[k:=v]> d) = first_present keys d.
Proof.
  induction keys as [|k' keys IH]; [done |].
  intros Hk. apply not_elem_of_cons in Hk as [Hne Hk].
  simpl. rewrite lookup_insert_ne by done. by rewrite IH.
Qed.

Lemma known_keys_ne (k k' : string) :
  k ∉ known_keys → k' ∈ known_keys → k ≠ k'.
Proof. intros Hk Hk' ->. done. Qed.

Lemma not_elem_of_sublist (k : string) (keys : list string) :
  k ∉ known_keys → keys ⊆ known_keys → k ∉ keys.
Proof. intros Hk Hsub Hin. apply Hk, Hsub, Hin. Qed.

(** A key written in the source is one of [known_keys]. *)
Ltac known_key :=
  apply (bool_decide_unpack _); vm_compute; reflexivity.

Ltac known_sublist :=
  intros k' Hk'; apply (bool_decide_unpack _) in Hk' || idtac;
  repeat (apply elem_of_cons in Hk' as [-> | Hk']; [known_key |]);
  by apply elem_of_nil in Hk'.

Section UnknownKeys.

Context `{E : Externals}.

Lemma method_ignores_key (metadata : gmap string value) k v self :
  k ∉ known_keys →
  _get_document_metadata (Some (<[k:=v]> metadata)) self
  = _get_document_metadata (Some metadata) self.
Proof.
  intros Hk.
  assert (∀ k', k' ∈ known_keys → k ≠ k') as Hne
    by (intros k'; by apply known_keys_ne).
  assert (first_present author_keys (<[k:=v]> metadata)
          = first_present author_keys metadata) as Hauthor.
  { apply first_present_insert_ne. apply not_elem_of_sublist; [done |].
    unfold author_keys. known_sublist. }
  assert (first_present page_count_keys (<[k:=v]> metadata)
          = first_present page_count_keys metadata) as Hpages.
  { apply first_present_insert_ne. apply not_elem_of_sublist; [done |].
    unfold page_count_keys. known_sublist. }
  assert (first_present creation_date_keys (<[k:=v]> metadata)
          = first_present creation_date_keys metadata) as Hdate.
  { apply first_present_insert_ne. apply not_elem_of_sublist; [done |].
    unfold creation_date_keys. known_sublist. }
  unfold _get_document_metadata, extract_content_type, pick_author,
    number_of_pages, pick_filesize, pick_ocr_parsing, pick_creation_date,
    detect_language, resolve_content_type.
  rewrite resolve_author_chain, lookup_num_of_pages_chain,
    lookup_creation_date_chain, Hauthor, Hpages, Hdate.
  rewrite (resolve_author_chain metadata),
    (lookup_num_of_pages_chain metadata),
    (lookup_creation_date_chain metadata).
  rewrite !(getitem_insert_ne _ k "Content-Type") by (apply Hne; known_key).
  rewrite !(getitem_insert_ne _ k "filesize") by (apply Hne; known_key).
  rewrite !(getitem_insert_ne _ k "ocr_parsing") by (apply Hne; known_key).
  rewrite !(getitem_insert_ne _ k "language") by (apply Hne; known_key).
  rewrite !(contains_insert_ne _ k "filesize") by (apply Hne; known_key).
  rewrite !(contains_insert_ne _ k "ocr_parsing") by (apply Hne; known_key).
  rewrite !(contains_insert_ne _ k "language") by (apply Hne; known_key).
  reflexivity.
Qed.

End UnknownKeys.

(** ** How the resolved values fail *)

Lemma page_count_of_raises (metadata : gmap string value) e :
  page_count_of metadata = Raises e → e = TypeError ∨ e = ValueError.
Proof.
  unfold page_count_of.
  destruct (first_present page_count_keys metadata) as [[x|xs]|]; try done.
  destruct (Builtins.ints xs) as [ns|e'] eqn:Hints; [done |].
  intros [= <-]. by apply ints_raises in Hints.
Qed.

Lemma creation_date_of_raises (metadata : gmap string value) e :
  creation_date_of metadata = Raises e → e = IndexError.
Proof.
  unfold creation_date_of.
  destruct (first_present creation_date_keys metadata) as [[x|[|x xs]]|];
    try done.
  by intros [= <-].
Qed.

Section LanguageFailure.

Context `{E : Externals}.

Lemma language_of_raises (lines : list string) e :
  language_of lines = Raises e →
  detect (PyStr.join " " lines) = Raises e
  ∧ isinstance_LangDetectException e = false.
Proof.
  unfold language_of.
  destruct (detect (PyStr.join " " lines)) as [code|e']; [done |].
  destruct (isinstance_LangDetectException e') eqn:He; [done |].
  by intros [= <-].
Qed.

(** Construction on a parse that returned a metadata map. *)
Lemma construct_run (document_path : string) (split_lines : bool)
    (text : option string) (metadata : gmap string value) :
  parse_file document_path = Returns (text, Some metadata) →
  construct document_path split_lines
  = match resolve_content_type metadata with
    | Raises e => Raises e
    | Returns ct =>
        match page_count_of metadata with
        | Raises e => Raises e
        | Returns pages =>
            match creation_date_of metadata with
            | Raises e => Raises e
            | Returns date =>
                match language_of
                        (_preprocess_file_lines text split_lines) with
                | Raises e => Raises e
                | Returns code =>
                    Returns
                      (document_of document_path
                         (_preprocess_file_lines text split_lines)
                         metadata ct pages date code)
                end
            end
        end
    end.
Proof.
  intros Hparse. unfold construct. rewrite init_run, Hparse.
  cbv zeta. cbn [fst snd]. rewrite get_document_metadata_run.
  destruct (resolve_content_type metadata) as [ct|e]; [| done].
  set (lines := _preprocess_file_lines text split_lines).
  set (self := set_author _ _).
  assert (file_lines self = Some lines) as Hlines by done.
  pose proof (steps_ending metadata lines self Hlines) as Hend.
  pose proof (steps_final metadata lines self) as Hfin.
  unfold ending in Hend. unfold final in Hfin.
  match type of Hend with
  | (?run).2 = _ => destruct run as [self' [[]|e0]]
  end; simpl in Hend, Hfin;
    destruct (page_count_of metadata) as [pages|e1]; try done;
    destruct (creation_date_of metadata) as [date|e2]; try done;
    destruct (language_of lines) as [code|e3]; try done;
    try (by injection Hend as ->).
  by rewrite (Hfin pages date code).
Qed.

End LanguageFailure.

(** ** Lines without words *)

Lemma isword_not_space (c : ascii) :
  PyStr.isword c = true → PyStr.isspace c = false.
Proof. destruct c as [[] [] [] [] [] [] [] []]; by vm_compute. Qed.

Lemma split_ws_nil (s : string) :
  PyStr.split_ws s = [] ↔ all_chars PyStr.isspace s = true.
Proof.
  induction s as [|c s IH]; [done |].
  cbn [all_chars]. destruct (PyStr.isspace c) eqn:Hc.
  - simpl. by rewrite Hc.
  - destruct (split_ws_cons_word c s Hc) as (w & ws & ->). done.
Qed.

Lemma all_chars_sub_nonword (s : string) :
  all_chars PyStr.isspace (PyStr.sub_nonword s)
  = all_chars (λ c, negb (PyStr.isword c)) s.
Proof.
  induction s as [|c s IH]; [done |].
  simpl. rewrite IH. f_equal.
  destruct (PyStr.isword c) eqn:Hc; [| done].
  by rewrite (isword_not_space c Hc).
Qed.

(** ** The groups that preprocessing makes *)

Section Groups.

Context `{E : Externals}.

Lemma preprocess_split (text : string) :
  _preprocess_file_lines (Some text) true
  = (preprocess_text <$> PyStr.split PyStr.LF (PyStr.strip text)).
Proof. unfold _preprocess_file_lines. by rewrite fold_split. Qed.

Lemma preprocess_merge (text : string) :
  _preprocess_file_lines (Some text) false
  = (render <$> paragraph_units (PyStr.split PyStr.LF (PyStr.strip text))).
Proof. unfold _preprocess_file_lines. by rewrite fold_merge_nil. Qed.

(** X1. The number of words found in the groups does not depend on the
    flag: joining lines with a space neither makes nor merges words. *)
Theorem word_count_flag_independent (text : string) :
  total_words (_preprocess_file_lines (Some text) false)
  = total_words (_preprocess_file_lines (Some text) true).
Proof.
  rewrite preprocess_merge, preprocess_split.
  rewrite <- total_words_concat. by rewrite paragraph_units_concat.
Qed.

(** X2. The number of characters plus the number of groups does not depend
    on the flag either: every line that is merged into the group before it
    costs one group and adds one space. *)
Theorem char_count_flag_relation (text : string) :
  total_chars (_preprocess_file_lines (Some text) false)
  + length (_preprocess_file_lines (Some text) false)
  = total_chars (_preprocess_file_lines (Some text) true)
    + length (_preprocess_file_lines (Some text) true).
Proof.
  rewrite <- !sum_list_with_succ.
  rewrite preprocess_merge, preprocess_split.
  rewrite <- total_chars_concat by apply paragraph_units_nonempty.
  by rewrite paragraph_units_concat.
Qed.

(** X3. A text always gives at least one group. With the flag set there
    are as many groups as lines in the stripped text; with the flag not
    set there is one group, plus one for each blank line after the first
    line, which is never more. *)
Theorem group_count (text : string) :
  let lines := PyStr.split PyStr.LF (PyStr.strip text) in
  length (_preprocess_file_lines (Some text) true) = length lines
  ∧ length (_preprocess_file_lines (Some text) false)
    = 1 + length (later_blank_lines lines)
  ∧ 1 ≤ length (_preprocess_file_lines (Some text) false)
      ≤ length (_preprocess_file_lines (Some text) true).
Proof.
  intros lines.
  assert (length (_preprocess_file_lines (Some text) true) = length lines)
    as Htrue by (rewrite preprocess_split; apply length_fmap).
  assert (length (_preprocess_file_lines (Some text) false)
          = 1 + length (later_blank_lines lines)) as Hfalse.
  { rewrite preprocess_merge, length_fmap. fold lines.
    destruct (split_cons PyStr.LF (PyStr.strip text)) as (l & ls & Hs).
    fold lines in Hs. rewrite Hs. apply paragraph_units_length. }
  split; [done |]. split; [done |].
  rewrite Htrue, Hfalse. split; [lia |].
  destruct (split_cons PyStr.LF (PyStr.strip text)) as (l & ls & Hs).
  fold lines in Hs. rewrite Hs. unfold later_blank_lines. simpl.
  pose proof (length_filter (λ line, is_blank line = true) ls). lia.
Qed.

(** X4. The lines that preprocessing cleans, joined again by newlines, are
    the stripped text, and none of them contains a newline; with the flag
    set each of them becomes one group, in the same order. *)
Theorem lines_round_trip (text : string) :
  let lines := PyStr.split PyStr.LF (PyStr.strip text) in
  PyStr.unlines lines = PyStr.strip text
  ∧ Forall (λ line, PyStr.mem PyStr.LF line = false) lines
  ∧ _preprocess_file_lines (Some text) true = (preprocess_text <$> lines).
Proof.
  intros lines. split; [apply split_join |].
  split; [apply split_no_sep | apply preprocess_split].
Qed.

(** X5. With the flag not set, every group after the first starts with the
    cleaned empty line, followed by a space when the group has more lines:
    with a cleaner that keeps the empty line empty, every later paragraph
    starts with a space. *)
Theorem later_groups_start_blank (text : string) :
  Forall (λ group,
            group = preprocess_text EmptyString
            ∨ ∃ rest, group = preprocess_text EmptyString +:+ " " +:+ rest)
    (tail (_preprocess_file_lines (Some text) false)).
Proof.
  rewrite preprocess_merge.
  pose proof (paragraph_units_heads
                (PyStr.split PyStr.LF (PyStr.strip text))) as Hheads.
  destruct (paragraph_units (PyStr.split PyStr.LF (PyStr.strip text)))
    as [|unit units]; [constructor |].
  simpl in *. induction Hheads as [|u us (rest & ->) _ IH]; [constructor |].
  simpl. constructor; [| exact IH].
  destruct rest as [|next rest]; [by left |].
  right. by exists (render (next :: rest)).
Qed.

(** X6. Blank lines at both ends of the raw text make no group. A text of
    whitespace only gives the single cleaned empty line under either flag;
    any other text is cut into lines of which the first and the last are
    not empty. *)
Theorem blank_edges_stripped (text : string) :
  let lines := PyStr.split PyStr.LF (PyStr.strip text) in
  (PyStr.strip text = EmptyString
   ∧ ∀ join_lines,
       _preprocess_file_lines (Some text) join_lines
       = [preprocess_text EmptyString])
  ∨ (∃ first_line, head lines = Some first_line ∧ first_line ≠ EmptyString)
    ∧ (∃ last_line, last lines = Some last_line ∧ last_line ≠ EmptyString).
Proof.
  intros lines. subst lines.
  destruct (strip_ends text)
    as [Hempty | (c & rest & t & d & Hhead & Hlast & Hc & Hd)].
  - left. split; [done |]. intros join_lines.
    unfold _preprocess_file_lines. rewrite Hempty. by destruct join_lines.
  - right. split.
    + rewrite Hhead.
      destruct (split_head PyStr.LF c rest (isspace_not_LF c Hc))
        as (w & ws & ->).
      by exists (String c w).
    + rewrite Hlast.
      destruct (split_last PyStr.LF d t (isspace_not_LF d Hd))
        as (ws & w & ->).
      exists (w +:+ String d EmptyString). rewrite last_snoc.
      split; [done | apply append_snoc_not_nil].
Qed.

(** X7. A line counts no word exactly when none of its characters is a
    word character (a letter, a digit or the underscore). *)
Theorem no_words_iff (line : string) :
  count_words line = 0
  ↔ all_chars (λ c, negb (PyStr.isword c)) line = true.
Proof.
  unfold count_words. rewrite <- all_chars_sub_nonword, <- split_ws_nil.
  by destruct (PyStr.split_ws (PyStr.sub_nonword line)).
Qed.

End Groups.

(** ** The steps beyond the claims, and the constructor as a whole *)

Section WholeConstructor.

Context `{E : Externals}.

Lemma construct_null_run (document_path : string) (split_lines : bool)
    (text : option string) :
  try_except_Exception (parse_file document_path) (Some EmptyString, None)
    = Returns (text, None) →
  construct document_path split_lines
  = Returns (set_document_path document_path
               (set_metadata_error true
                  (set_file_lines (_preprocess_file_lines text split_lines)
                     new_object))).
Proof.
  intros Hparse. unfold construct. rewrite init_run.
  assert (match parse_file document_path with
          | Returns r => r
          | Raises _ => (Some EmptyString, None)
          end = (text, None)) as ->.
  { destruct (parse_file document_path); simpl in Hparse; congruence. }
  reflexivity.
Qed.

(** X8. The creation date is the value of the first present key among
    ["Creation-Date"], ["meta:creation_date"] and ["created"], and [None]
    without any of them. Of a list the first element is kept, as it is and
    not turned into a string; an empty list raises [IndexError] and stays
    in the attribute. *)
Theorem creation_date_fallback_chain (metadata : gmap string value)
    (self : FARO_Document) :
  match first_present creation_date_keys metadata with
  | None =>
      pick_creation_date metadata self
      = (set_creation_date (VScalar SNone) self, Returns tt)
  | Some (VScalar x) =>
      pick_creation_date metadata self
      = (set_creation_date (VScalar x) self, Returns tt)
  | Some (VList (x :: _)) =>
      pick_creation_date metadata self
      = (set_creation_date (VScalar x) self, Returns tt)
  | Some (VList []) =>
      pick_creation_date metadata self
      = (set_creation_date (VList []) self, Raises IndexError)
  end.
Proof.
  rewrite pick_creation_date_run. unfold creation_date_of.
  by destruct (first_present creation_date_keys metadata) as [[x|[|x xs]]|].
Qed.

(** X9. On an object that has its lines, the counting step always returns;
    it leaves in [num_words] the sum of the words of the lines and in
    [num_chars] the sum of their lengths, whatever the two attributes held
    before, and the words are never more than the characters. *)
Theorem counts_of_lines (lines : list string) (self : FARO_Document) :
  file_lines self = Some lines →
  ending count_words_and_chars self = Returns tt
  ∧ num_words (final count_words_and_chars self) = Some (total_words lines)
  ∧ num_chars (final count_words_and_chars self) = Some (total_chars lines)
  ∧ total_words lines ≤ total_chars lines.
Proof.
  intros Hlines. unfold ending, final.
  rewrite (count_words_and_chars_run lines self Hlines).
  repeat split. apply total_words_bound.
Qed.

(** X10. When the detector raises anything but its own exception, the
    language step raises the same exception: nothing catches it. The
    language attribute then holds the ["language"] value of the map when
    there is one, and is left as it was otherwise. *)
Theorem detector_failure_leaves (metadata : gmap string value)
    (lines : list string) (self : FARO_Document) (e : exn) :
  file_lines self = Some lines →
  detect (PyStr.join " " lines) = Raises e →
  isinstance_LangDetectException e = false →
  detect_language metadata self
  = (match metadata !! "language" with
     | Some v => set_lang v self
     | None => self
     end,
     Raises e).
Proof.
  intros Hlines Hdetect He.
  rewrite (detect_language_run metadata lines self Hlines).
  unfold language_of. by rewrite Hdetect, He.
Qed.

(** X11. When the content type, the page count, the creation date and the
    language all resolve, construction returns the document that holds
    them together with the author of the fallback chain, the file size of
    the map or [None], the OCR flag of the map or [False], the counts of
    the preprocessed lines and the path; [metadata_error] is not assigned.
    The dictionary of [get_metadata_dict] lists seven of these values under
    their output keys, in a fixed order. *)
Theorem constructed_document (document_path : string) (split_lines : bool)
    (text : option string) (metadata : gmap string value)
    (ct pages date : value) (code : string) :
  parse_file document_path = Returns (text, Some metadata) →
  resolve_content_type metadata = Returns ct →
  page_count_of metadata = Returns pages →
  creation_date_of metadata = Returns date →
  language_of (_preprocess_file_lines text split_lines) = Returns code →
  construct document_path split_lines
  = Returns (document_of document_path
               (_preprocess_file_lines text split_lines)
               metadata ct pages date code)
  ∧ get_metadata_dict
      (document_of document_path (_preprocess_file_lines text split_lines)
         metadata ct pages date code)
    = [ ("meta:content-type", ct);
        ("meta:author",
         default (VScalar SNone) (first_present author_keys metadata));
        ("meta:pages", pages);
        ("meta:lang", VScalar (SStr code));
        ("meta:date", date);
        ("meta:filesize", default (VScalar SNone) (metadata !! "filesize"));
        ("meta:ocr",
         default (VScalar (SBool false)) (metadata !! "ocr_parsing")) ].
Proof.
  intros Hparse Hct Hpages Hdate Hcode. split; [| done].
  rewrite (construct_run _ _ _ _ Hparse). by rewrite Hct, Hpages, Hdate, Hcode.
Qed.

(** X12. On a parse that returned a metadata map, construction returns
    exactly when the content type, the page count, the creation date and
    the language all resolve; otherwise it raises the exception of the
    first of the four that fails, in this order. *)
Theorem construction_failure_order (document_path : string)
    (split_lines : bool) (text : option string)
    (metadata : gmap string value) :
  parse_file document_path = Returns (text, Some metadata) →
  void (construct document_path split_lines)
  = and_then (void (resolve_content_type metadata))
      (and_then (void (page_count_of metadata))
         (and_then (void (creation_date_of metadata))
            (void (language_of (_preprocess_file_lines text split_lines))))).
Proof.
  intros Hparse. rewrite (construct_run _ _ _ _ Hparse).
  destruct (resolve_content_type metadata); [| done].
  destruct (page_count_of metadata); [| done].
  destruct (creation_date_of metadata); [| done].
  by destruct (language_of (_preprocess_file_lines text split_lines)).
Qed.

(** X13. An exception that leaves the constructor is the [KeyError] of
    ["Content-Type"], an [IndexError], a [TypeError], a [ValueError], or an
    exception that the detector raised and that is not its own. The
    parser's exceptions and the detector's own exception never leave. *)
Theorem construction_exceptions (document_path : string)
    (split_lines : bool) (e : exn) :
  construct document_path split_lines = Raises e →
  (e = KeyError "Content-Type" ∨ e = IndexError ∨ e = TypeError
   ∨ e = ValueError ∨ ∃ text, detect text = Raises e)
  ∧ e ≠ LangDetectException
  ∧ ∃ text metadata,
      parse_file document_path = Returns (text, Some metadata).
Proof.
  intros Hraise.
  destruct (parse_file document_path) as [[text [metadata|]]|e0] eqn:Hparse.
  - rewrite (construct_run _ _ _ _ Hparse) in Hraise.
    destruct (resolve_content_type metadata) as [ct|e1] eqn:Hct.
    + destruct (page_count_of metadata) as [pages|e2] eqn:Hpages.
      * destruct (creation_date_of metadata) as [date|e3] eqn:Hdate.
        -- destruct (language_of _) as [code|e4] eqn:Hcode; [done |].
           injection Hraise as ->.
           apply language_of_raises in Hcode as [Hdetect He].
           split; [by eauto 10 |]. split; [by intros -> | by eauto].
        -- injection Hraise as ->.
           apply creation_date_of_raises in Hdate as ->.
           split; [by eauto |]. split; [done | by eauto].
      * injection Hraise as ->.
        apply page_count_of_raises in Hpages as [-> | ->];
          (split; [by eauto 6 |]; split; [done | by eauto]).
    + injection Hraise as ->.
      apply resolve_content_type_raises in Hct as [[-> _] | ->];
        (split; [by eauto |]; split; [done | by eauto]).
  - by rewrite (construct_null_run _ _ text) in Hraise by (by rewrite Hparse).
  - by rewrite (construct_null_run _ _ (Some EmptyString)) in Hraise
      by (by rewrite Hparse).
Qed.

(** X14. Every constructed document stores the path it was given and the
    preprocessed lines of the parsed text, which metadata resolution never
    changes. Its [metadata_error] is [True] when the metadata map was null
    and is not assigned otherwise: the flag is never [False]. *)
Theorem constructed_invariants (path : string) (split_lines : bool)
    (text : option string) (metadata : option (gmap string value))
    (doc : FARO_Document) :
  try_except_Exception (parse_file path) (Some EmptyString, None)
    = Returns (text, metadata) →
  construct path split_lines = Returns doc →
  document_path doc = Some path
  ∧ file_lines doc = Some (_preprocess_file_lines text split_lines)
  ∧ metadata_error doc
    = match metadata with None => Some true | Some _ => None end
  ∧ metadata_error doc ≠ Some false.
Proof.
  intros Hparse Hdoc. destruct metadata as [metadata|].
  - assert (parse_file path = Returns (text, Some metadata)) as Hp.
    { destruct (parse_file path) as [r|e]; simpl in Hparse;
        congruence. }
    rewrite (construct_run _ _ _ _ Hp) in Hdoc.
    destruct (resolve_content_type metadata); [| done].
    destruct (page_count_of metadata); [| done].
    destruct (creation_date_of metadata); [| done].
    destruct (language_of _); [| done].
    by injection Hdoc as <-.
  - rewrite (construct_null_run _ _ _ Hparse) in Hdoc.
    by injection Hdoc as <-.
Qed.

(** X15. The method reads seventeen keys and no other: adding a key that
    is not one of them to the metadata map, with any value, or taking such
    a key away, changes neither the object that the method leaves nor the
    way it ends. *)
Theorem unknown_keys_ignored (metadata : gmap string value) (k : string)
    (v : value) (self : FARO_Document) :
  k ∉ known_keys →
  _get_document_metadata (Some (<[k:=v]> metadata)) self
  = _get_document_metadata (Some metadata) self
  ∧ _get_document_metadata (Some (delete k metadata)) self
    = _get_document_metadata (Some metadata) self.
Proof.
  intros Hk. split; [by apply method_ignores_key |].
  destruct (metadata !! k) as [v'|] eqn:Hv.
  - rewrite <- (method_ignores_key (delete k metadata) k v' self Hk).
    by rewrite insert_delete_id.
  - by rewrite delete_id.
Qed.

End WholeConstructor.

(** ** The further properties on sample documents *)

Lemma counts_of_lines_sample :
  file_lines (set_file_lines ["Hello."; " World."] new_object)
  = Some ["Hello."; " World."]
  ∧ ending count_words_and_chars
      (set_file_lines ["Hello."; " World."] new_object)
    = Returns tt
  ∧ num_words (final count_words_and_chars
                 (set_file_lines ["Hello."; " World."] new_object))
    = Some (total_words ["Hello."; " World."])
  ∧ num_chars (final count_words_and_chars
                 (set_file_lines ["Hello."; " World."] new_object))
    = Some (total_chars ["Hello."; " World."])
  ∧ total_words ["Hello."; " World."] ≤ total_chars ["Hello."; " World."].
Proof.
  split; [reflexivity |].
  exact (counts_of_lines ["Hello."; " World."]
           (set_file_lines ["Hello."; " World."] new_object) eq_refl).
Defined.

Lemma detector_failure_leaves_sample :
  file_lines (set_file_lines ["Hello."; " World."] new_object)
  = Some ["Hello."; " World."]
  ∧ detect (Externals := crashing_externals)
      (PyStr.join " " ["Hello."; " World."])
    = Raises (OtherException "RuntimeError")
  ∧ isinstance_LangDetectException (OtherException "RuntimeError") = false
  ∧ detect_language (E := crashing_externals) dated_metadata
      (set_file_lines ["Hello."; " World."] new_object)
    = (set_lang (VScalar (SStr "fr"))
         (set_file_lines ["Hello."; " World."] new_object),
       Raises (OtherException "RuntimeError")).
Proof.
  split; [reflexivity |]. split; [reflexivity |]. split; [reflexivity |].
  exact (detector_failure_leaves (E := crashing_externals) dated_metadata
           ["Hello."; " World."]
           (set_file_lines ["Hello."; " World."] new_object)
           (OtherException "RuntimeError") eq_refl eq_refl eq_refl).
Defined.

Lemma constructed_document_sample :
  parse_file (Externals := dated_externals) "a.pdf"
  = Returns (Some hello_world, Some dated_metadata)
  ∧ resolve_content_type dated_metadata
    = Returns (VScalar (SStr "application/pdf"))
  ∧ page_count_of dated_metadata = Returns (VScalar (SInt 1))
  ∧ creation_date_of dated_metadata = Returns (VScalar (SStr "2020-01-02"))
  ∧ language_of (E := dated_externals) ["Hello."; " World."] = Returns "en"
  ∧ construct (E := dated_externals) "a.pdf" false
    = Returns (document_of "a.pdf" ["Hello."; " World."] dated_metadata
                 (VScalar (SStr "application/pdf")) (VScalar (SInt 1))
                 (VScalar (SStr "2020-01-02")) "en")
  ∧ get_metadata_dict
      (document_of "a.pdf" ["Hello."; " World."] dated_metadata
         (VScalar (SStr "application/pdf")) (VScalar (SInt 1))
         (VScalar (SStr "2020-01-02")) "en")
    = [ ("meta:content-type", VScalar (SStr "application/pdf"));
        ("meta:author", VScalar SNone);
        ("meta:pages", VScalar (SInt 1));
        ("meta:lang", VScalar (SStr "en"));
        ("meta:date", VScalar (SStr "2020-01-02"));
        ("meta:filesize", VScalar (SInt 2048));
        ("meta:ocr", VScalar (SBool true)) ].
Proof.
  split; [reflexivity |]. split; [reflexivity |]. split; [reflexivity |].
  split; [reflexivity |]. split; [reflexivity |].
  exact (constructed_document (E := dated_externals) "a.pdf" false
           (Some hello_world) dated_metadata
           (VScalar (SStr "application/pdf")) (VScalar (SInt 1))
           (VScalar (SStr "2020-01-02")) "en"
           eq_refl eq_refl eq_refl eq_refl eq_refl).
Defined.

Lemma construction_failure_order_sample :
  parse_file
    (Externals := fixed_externals (Some hello_world)
                    (Some typed_broken_metadata)) "a.pdf"
  = Returns (Some hello_world, Some typed_broken_metadata)
  ∧ page_count_of typed_broken_metadata = Raises ValueError
  ∧ creation_date_of typed_broken_metadata = Raises IndexError
  ∧ void (construct
            (E := fixed_externals (Some hello_world)
                    (Some typed_broken_metadata)) "a.pdf" false)
    = Raises ValueError.
Proof.
  split; [reflexivity |]. split; [reflexivity |]. split; [reflexivity |].
  exact (construction_failure_order
           (E := fixed_externals (Some hello_world)
                   (Some typed_broken_metadata))
           "a.pdf" false (Some hello_world) typed_broken_metadata eq_refl).
Defined.

Lemma construction_exceptions_sample :
  construct
    (E := fixed_externals (Some hello_world) (Some broken_metadata))
    "a.pdf" true
  = Raises (KeyError "Content-Type")
  ∧ (KeyError "Content-Type" = KeyError "Content-Type"
     ∨ KeyError "Content-Type" = IndexError
     ∨ KeyError "Content-Type" = TypeError
     ∨ KeyError "Content-Type" = ValueError
     ∨ ∃ text,
         detect
           (Externals := fixed_externals (Some hello_world)
                           (Some broken_metadata)) text
         = Raises (KeyError "Content-Type"))
  ∧ KeyError "Content-Type" ≠ LangDetectException
  ∧ ∃ text metadata,
      parse_file
        (Externals := fixed_externals (Some hello_world)
                        (Some broken_metadata)) "a.pdf"
      = Returns (text, Some metadata).
Proof.
  split; [reflexivity |].
  exact (construction_exceptions
           (E := fixed_externals (Some hello_world) (Some broken_metadata))
           "a.pdf" true (KeyError "Content-Type") eq_refl).
Defined.

Lemma constructed_invariants_sample :
  try_except_Exception (parse_file (Externals := pdf_externals) "a.pdf")
    (Some EmptyString, None)
  = Returns (Some hello_world, Some pdf_metadata)
  ∧ construct (E := pdf_externals) "a.pdf" false = Returns pdf_document
  ∧ document_path pdf_document = Some "a.pdf"
  ∧ file_lines pdf_document
    = Some (_preprocess_file_lines (E := pdf_externals)
              (Some hello_world) false)
  ∧ metadata_error pdf_document = None
  ∧ metadata_error pdf_document ≠ Some false.
Proof.
  split; [reflexivity |]. split; [reflexivity |].
  exact (constructed_invariants (E := pdf_externals) "a.pdf" false
           (Some hello_world) (Some pdf_metadata) pdf_document
           eq_refl eq_refl).
Defined.

Lemma unknown_keys_ignored_sample :
  ("X-Parsed-By" ∉ known_keys)
  ∧ _get_document_metadata (E := pdf_externals)
      (Some (<["X-Parsed-By" := VScalar (SStr "PDFParser")]> pdf_metadata))
      new_object
    = _get_document_metadata (E := pdf_externals) (Some pdf_metadata)
        new_object
  ∧ _get_document_metadata (E := pdf_externals)
      (Some (delete "X-Parsed-By" pdf_metadata)) new_object
    = _get_document_metadata (E := pdf_externals) (Some pdf_metadata)
        new_object.
Proof.
  assert ("X-Parsed-By" ∉ known_keys) as Hk
    by (apply (bool_decide_unpack _); vm_compute; reflexivity).
  split; [exact Hk |].
  exact (unknown_keys_ignored (E := pdf_externals) pdf_metadata
           "X-Parsed-By" (VScalar (SStr "PDFParser")) new_object Hk).
Defined.
